(** * The debate chamber client: session and connection state engine

    A shallow embedding of the script block of [src/routes/+page.svelte]:
    the reactive variables of the component become one [State] record, the
    event handlers ([ws.onopen], [ws.onmessage], [ws.onclose], [ws.onerror])
    and the command handlers ([handleStartDebate], [handleSendMessage],
    [handleRegenerate], [handleEarlyPauseOrSummarize], [handleStopOrReset])
    become functions [State -> State].  What the component does to the
    outside world is recorded in the state as well: the frames handed to
    [ws.send] ([wire]) and the callbacks registered with [setTimeout]
    ([timers]).

    Text that flows through the component (what the server sends, what the
    user types, the key of a keyboard event) is a JavaScript string: a list
    of UTF-16 code units, [jstring].  Texts that are fixed in the script
    and only shown or put into a frame (notices, frame types, class names,
    persona ids) are written as they stand, as [string]; [lit] turns such a
    text into its code units where the script compares it with, or stores
    it as, a JavaScript string. *)

From Stdlib Require Import ZArith NArith String Ascii List Bool Lia.
From stdpp Require Import base strings gmap list pretty.
Import ListNotations.

Local Open Scope string_scope.
Local Open Scope list_scope.

(** ** Strings, the way the script uses them *)

(** A JavaScript string. *)
Abbreviation jstring := (list N).

Module Js.

(** The code units of a text of the script (all of them are ASCII). *)
Definition lit (s : string) : jstring :=
  map N_of_ascii (list_ascii_of_string s).

(** [a === b] on strings. *)
Fixpoint eqs (a b : jstring) : bool :=
  match a, b with
  | [], [] => true
  | x :: a', y :: b' => (x =? y)%N && eqs a' b'
  | _, _ => false
  end.

(** [c] is one of A-Z. *)
Definition is_upper (c : N) : bool := ((65 <=? c) && (c <=? 90))%N.

(** What [toLowerCase] puts for one code unit.  A-Z go to a-z; the two
    letters outside ASCII whose lower case reaches into ASCII are there
    too: U+0130 (capital I with dot) becomes [i] followed by U+0307, and
    U+212A (the Kelvin sign) becomes [k].  Every other code unit is left
    as it is: JavaScript lowers further letters, but it maps none of them
    to or from an ASCII code unit, and the script only ever searches the
    lowered text for ASCII words. *)
Definition lower_unit (c : N) : jstring :=
  if is_upper c then [(c + 32)%N]
  else if (c =? 0x130)%N then [0x69%N; 0x307%N]
  else if (c =? 0x212A)%N then [0x6B%N]
  else [c].

(** [String.prototype.toLowerCase]. *)
Fixpoint toLowerCase (s : jstring) : jstring :=
  match s with
  | [] => []
  | c :: t => lower_unit c ++ toLowerCase t
  end.

(** [needle] starts [s]. *)
Fixpoint startsWith (s needle : jstring) : bool :=
  match needle, s with
  | [], _ => true
  | _ :: _, [] => false
  | a :: needle', b :: s' =>
      if (a =? b)%N then startsWith s' needle' else false
  end.

(** [String.prototype.includes]: [needle] occurs somewhere in [s]. *)
Fixpoint includes (s needle : jstring) : bool :=
  if startsWith s needle then true
  else match s with
       | [] => false
       | _ :: t => includes t needle
       end.

(** The white space and the line terminators [trim] removes: TAB, LF, VT,
    FF, CR, SPACE, U+00A0, U+1680, U+2000 to U+200A, U+2028, U+2029,
    U+202F, U+205F, U+3000 and U+FEFF. *)
Definition is_whitespace (c : N) : bool :=
  (((9 <=? c) && (c <=? 13))
   || (c =? 0x20) || (c =? 0xA0) || (c =? 0x1680)
   || ((0x2000 <=? c) && (c <=? 0x200A))
   || (c =? 0x2028) || (c =? 0x2029) || (c =? 0x202F)
   || (c =? 0x205F) || (c =? 0x3000) || (c =? 0xFEFF))%N.

Fixpoint trimStart (s : jstring) : jstring :=
  match s with
  | [] => []
  | c :: t => if is_whitespace c then trimStart t else s
  end.

Fixpoint trimEnd (s : jstring) : jstring :=
  match s with
  | [] => []
  | c :: t =>
      match trimEnd t with
      | [] => if is_whitespace c then [] else [c]
      | t' => c :: t'
      end
  end.

(** [String.prototype.trim]. *)
Definition trim (s : jstring) : jstring := trimEnd (trimStart s).

(** Truthiness of a string: the empty string is the only falsy one. *)
Definition truthy (s : jstring) : bool :=
  match s with [] => false | _ :: _ => true end.

(** [s.replace(/c/g, by)] for a one-character pattern. *)
Fixpoint replaceAll (c : N) (by_ : jstring) (s : jstring) : jstring :=
  match s with
  | [] => []
  | a :: t =>
      if (a =? c)%N then by_ ++ replaceAll c by_ t
      else a :: replaceAll c by_ t
  end.

End Js.

(** ** Data model *)

(** [interface ChatMessageFromServer]; the two optional fields are [None]
    when the envelope does not carry them. *)
Record ChatMessageFromServer := {
  id : jstring;
  speaker : jstring;
  content : jstring;
  timestamp : jstring;
  isThinking : option bool;
  isRegenerated : option bool
}.

(** The four values of [currentSessionState]. *)
Inductive SessionState :=
| idle
| automated_debate
| user_interaction
| summarizing.

(** [WebSocket.readyState]. *)
Inductive ReadyState := CONNECTING | OPEN | CLOSING | CLOSED.

(** The payload objects the script builds for [sendMessageToWs]. *)
Inductive Payload :=
| payload_empty
| payload_content (content : jstring)
| payload_start (topic : jstring) (persona_ids : list string).

(** What [ws.send] is given: [JSON.stringify({ type, payload })]. *)
Record Envelope := { type : string; payload : Payload }.

(** The functions handed to [setTimeout]. *)
Inductive Callback :=
| cb_connectWebSocket
| cb_scroll.

(** The component's variables, the frames sent so far (oldest first) and
    the pending timers (delay in milliseconds, oldest first). *)
Record State := {
  messages : list ChatMessageFromServer;
  ws : option ReadyState;
  userInput : jstring;
  debateTopicInput : jstring;
  isConnected : bool;
  currentSessionState : SessionState;
  showError : option string;
  chatContainer : bool;
  thinkingSpeakers : gset jstring;
  selectedPersonaIds : list string;
  wire : list Envelope;
  timers : list (Z * Callback)
}.

Global Instance SessionState_eq_dec : EqDecision SessionState.
Proof. solve_decision. Defined.

Global Instance Callback_eq_dec : EqDecision Callback.
Proof. solve_decision. Defined.

Definition set_messages (v : list ChatMessageFromServer) (s : State) : State :=
  {| messages := v; ws := ws s; userInput := userInput s;
     debateTopicInput := debateTopicInput s; isConnected := isConnected s;
     currentSessionState := currentSessionState s; showError := showError s;
     chatContainer := chatContainer s; thinkingSpeakers := thinkingSpeakers s;
     selectedPersonaIds := selectedPersonaIds s; wire := wire s;
     timers := timers s |}.

Definition set_ws (v : option ReadyState) (s : State) : State :=
  {| messages := messages s; ws := v; userInput := userInput s;
     debateTopicInput := debateTopicInput s; isConnected := isConnected s;
     currentSessionState := currentSessionState s; showError := showError s;
     chatContainer := chatContainer s; thinkingSpeakers := thinkingSpeakers s;
     selectedPersonaIds := selectedPersonaIds s; wire := wire s;
     timers := timers s |}.

Definition set_userInput (v : jstring) (s : State) : State :=
  {| messages := messages s; ws := ws s; userInput := v;
     debateTopicInput := debateTopicInput s; isConnected := isConnected s;
     currentSessionState := currentSessionState s; showError := showError s;
     chatContainer := chatContainer s; thinkingSpeakers := thinkingSpeakers s;
     selectedPersonaIds := selectedPersonaIds s; wire := wire s;
     timers := timers s |}.

Definition set_debateTopicInput (v : jstring) (s : State) : State :=
  {| messages := messages s; ws := ws s; userInput := userInput s;
     debateTopicInput := v; isConnected := isConnected s;
     currentSessionState := currentSessionState s; showError := showError s;
     chatContainer := chatContainer s; thinkingSpeakers := thinkingSpeakers s;
     selectedPersonaIds := selectedPersonaIds s; wire := wire s;
     timers := timers s |}.

Definition set_isConnected (v : bool) (s : State) : State :=
  {| messages := messages s; ws := ws s; userInput := userInput s;
     debateTopicInput := debateTopicInput s; isConnected := v;
     currentSessionState := currentSessionState s; showError := showError s;
     chatContainer := chatContainer s; thinkingSpeakers := thinkingSpeakers s;
     selectedPersonaIds := selectedPersonaIds s; wire := wire s;
     timers := timers s |}.

Definition set_currentSessionState (v : SessionState) (s : State) : State :=
  {| messages := messages s; ws := ws s; userInput := userInput s;
     debateTopicInput := debateTopicInput s; isConnected := isConnected s;
     currentSessionState := v; showError := showError s;
     chatContainer := chatContainer s; thinkingSpeakers := thinkingSpeakers s;
     selectedPersonaIds := selectedPersonaIds s; wire := wire s;
     timers := timers s |}.

Definition set_showError (v : option string) (s : State) : State :=
  {| messages := messages s; ws := ws s; userInput := userInput s;
     debateTopicInput := debateTopicInput s; isConnected := isConnected s;
     currentSessionState := currentSessionState s; showError := v;
     chatContainer := chatContainer s; thinkingSpeakers := thinkingSpeakers s;
     selectedPersonaIds := selectedPersonaIds s; wire := wire s;
     timers := timers s |}.

Definition set_thinkingSpeakers (v : gset jstring) (s : State) : State :=
  {| messages := messages s; ws := ws s; userInput := userInput s;
     debateTopicInput := debateTopicInput s; isConnected := isConnected s;
     currentSessionState := currentSessionState s; showError := showError s;
     chatContainer := chatContainer s; thinkingSpeakers := v;
     selectedPersonaIds := selectedPersonaIds s; wire := wire s;
     timers := timers s |}.

Definition set_wire (v : list Envelope) (s : State) : State :=
  {| messages := messages s; ws := ws s; userInput := userInput s;
     debateTopicInput := debateTopicInput s; isConnected := isConnected s;
     currentSessionState := currentSessionState s; showError := showError s;
     chatContainer := chatContainer s; thinkingSpeakers := thinkingSpeakers s;
     selectedPersonaIds := selectedPersonaIds s; wire := v;
     timers := timers s |}.

Definition set_timers (v : list (Z * Callback)) (s : State) : State :=
  {| messages := messages s; ws := ws s; userInput := userInput s;
     debateTopicInput := debateTopicInput s; isConnected := isConnected s;
     currentSessionState := currentSessionState s; showError := showError s;
     chatContainer := chatContainer s; thinkingSpeakers := thinkingSpeakers s;
     selectedPersonaIds := selectedPersonaIds s; wire := wire s;
     timers := v |}.

(** ** The script *)

Import Js.

(** [a === b] on session states, as a boolean. *)
Definition state_is (a b : SessionState) : bool := bool_decide (a = b).

(** A value of type [boolean | undefined] used as a condition. *)
Definition flag_set (o : option bool) : bool :=
  match o with Some true => true | _ => false end.

(** [scrollToBottom]: when the chat container is bound, a 50 ms timer is
    registered that moves the scroll position. *)
Definition scrollToBottom (s : State) : State :=
  if chatContainer s then set_timers (timers s ++ [(50%Z, cb_scroll)]) s
  else s.

(** [ws.onopen]. *)
Definition onopen (s : State) : State :=
  let s := set_isConnected true s in
  let s := set_showError None s in
  if state_is (currentSessionState s) summarizing
     || state_is (currentSessionState s) idle
  then s
  else if negb (state_is (currentSessionState s) user_interaction)
          && negb (state_is (currentSessionState s) automated_debate)
       then set_currentSessionState idle s
       else s.

(** The branch of [ws.onmessage] taken for a [System] message: the chain
    of [if ... else if ...] over [lowerContent]. *)
Definition apply_system_notice (lowerContent : jstring) (s : State) : State :=
  if includes lowerContent (lit "debate started") then
    set_currentSessionState automated_debate s
  else if includes lowerContent (lit "automated debate phase complete") then
    set_currentSessionState user_interaction s
  else if includes lowerContent (lit "generating final summary") then
    set_currentSessionState summarizing s
  else if includes lowerContent (lit "debate concluded")
          || includes lowerContent (lit "session ended")
          || includes lowerContent (lit "session stopped") then
    set_debateTopicInput [] (set_currentSessionState idle s)
  else s.

(** The body of the [try] block of [ws.onmessage], once [JSON.parse] has
    produced [message]. *)
Definition process_message (message : ChatMessageFromServer) (s : State)
  : State :=
  let s :=
    if flag_set (isThinking message) then
      set_thinkingSpeakers ({[ speaker message ]} ∪ thinkingSpeakers s) s
    else
      let s :=
        set_thinkingSpeakers (thinkingSpeakers s ∖ {[ speaker message ]}) s in
      let s := set_messages (messages s ++ [message]) s in
      if eqs (speaker message) (lit "System") then
        apply_system_notice (toLowerCase (content message)) s
      else s
  in
  scrollToBottom s.

(** [ws.onmessage]; [data] is [None] when [JSON.parse] throws. *)
Definition onmessage (data : option ChatMessageFromServer) (s : State)
  : State :=
  match data with
  | Some message => process_message message s
  | None => set_showError (Some "Error processing server message.") s
  end.

(** [ws.onclose]. *)
Definition onclose (s : State) : State :=
  let s := set_isConnected false s in
  let s := set_thinkingSpeakers ∅ s in
  let s := set_showError (Some "Disconnected. Reconnecting...") s in
  set_timers (timers s ++ [(3000%Z, cb_connectWebSocket)]) s.

(** [ws.onerror]. *)
Definition onerror (s : State) : State :=
  set_showError (Some "WebSocket connection error.") s.

(** [connectWebSocket]: a fresh socket replaces [ws]; it starts out
    connecting. *)
Definition connectWebSocket (s : State) : State :=
  set_ws (Some CONNECTING) s.

(** [ws && ws.readyState === WebSocket.OPEN]. *)
Definition socket_open (s : State) : bool :=
  match ws s with Some OPEN => true | _ => false end.

(** [sendMessageToWs]. *)
Definition sendMessageToWs (ty : string) (p : Payload) (s : State) : State :=
  if socket_open s then
    set_showError None
      (set_wire (wire s ++ [ {| type := ty; payload := p |} ]) s)
  else
    set_showError (Some "Not connected. Please wait or check connection.") s.

(** [handleStartDebate]. *)
Definition handleStartDebate (s : State) : State :=
  if negb (truthy (trim (debateTopicInput s))) then
    set_showError (Some "Please enter a debate topic.") s
  else if (length (selectedPersonaIds s) <? 1)%nat then
    set_showError (Some "Please select at least one persona.") s
  else
    let s := set_messages [] s in
    let s := set_thinkingSpeakers ∅ s in
    sendMessageToWs "start_debate"
      (payload_start (debateTopicInput s) (selectedPersonaIds s)) s.

(** The two clock readings of [handleSendMessage]: [Date.now()] and
    [new Date().toISOString()]. *)
Record Clock := { now : Z; isoString : jstring }.

(** The message [handleSendMessage] synthesizes. *)
Definition userMsg (clk : Clock) (text : jstring) : ChatMessageFromServer :=
  {| id := lit "local_" ++ lit (pretty (now clk));
     speaker := lit "User";
     content := text;
     timestamp := isoString clk;
     isThinking := None;
     isRegenerated := None |}.

(** Allowed phases for sending and for the action buttons. *)
Definition active_phase (p : SessionState) : bool :=
  state_is p automated_debate || state_is p user_interaction.

(** [handleSendMessage]. *)
Definition handleSendMessage (clk : Clock) (s : State) : State :=
  if negb (truthy (trim (userInput s))) then s
  else if negb (state_is (currentSessionState s) automated_debate)
          && negb (state_is (currentSessionState s) user_interaction) then
    set_showError
      (Some "Cannot send message when not in active debate or Q&A.") s
  else
    let messageType :=
      if state_is (currentSessionState s) user_interaction
      then "user_query" else "user_interjection" in
    let text := userInput s in
    let s := sendMessageToWs messageType (payload_content text) s in
    let s := set_messages (messages s ++ [userMsg clk text]) s in
    let s := set_userInput [] s in
    scrollToBottom s.

(** [handleRegenerate]. *)
Definition handleRegenerate (s : State) : State :=
  if negb (state_is (currentSessionState s) automated_debate)
     && negb (state_is (currentSessionState s) user_interaction)
  then s
  else sendMessageToWs "regenerate_last_ai_turn" payload_empty s.

(** [handleEarlyPauseOrSummarize]. *)
Definition handleEarlyPauseOrSummarize (s : State) : State :=
  if state_is (currentSessionState s) automated_debate then
    sendMessageToWs "seek_convergence" payload_empty s
  else if state_is (currentSessionState s) user_interaction then
    sendMessageToWs "user_query" (payload_content (lit "/end")) s
  else s.

(** [handleStopOrReset]. *)
Definition handleStopOrReset (s : State) : State :=
  sendMessageToWs "stop_debate" payload_empty s.

(** *** Reactive declarations *)

Definition canStartDebate (s : State) : bool :=
  isConnected s && state_is (currentSessionState s) idle.

Definition canSendMessage (s : State) : bool :=
  isConnected s && active_phase (currentSessionState s).

Definition canUseActionButtons (s : State) : bool :=
  isConnected s && active_phase (currentSessionState s).

(** [m.speaker !== 'User' && m.speaker !== 'System']. *)
Definition is_ai_message (m : ChatMessageFromServer) : bool :=
  negb (eqs (speaker m) (lit "User"))
  && negb (eqs (speaker m) (lit "System")).

Definition noAiMessagesYet (s : State) : bool :=
  (length (filter (fun m => is_ai_message m = true) (messages s)) =? 0)%nat.

(** *** The "Regenerate Last AI" button

    The markup renders the action panel only in the two active phases and
    gives the button [disabled={!canUseActionButtons || noAiMessagesYet}];
    its click handler is [handleRegenerate], which has no other caller. *)

Definition regenerate_button_rendered (s : State) : bool :=
  active_phase (currentSessionState s).

Definition regenerate_button_disabled (s : State) : bool :=
  negb (canUseActionButtons s) || noAiMessagesYet s.

(** A click on the button: a button that is absent or disabled delivers no
    click event. *)
Definition click_regenerate (s : State) : State :=
  if regenerate_button_rendered s && negb (regenerate_button_disabled s)
  then handleRegenerate s
  else s.

(** *** The browser's side of the socket and of the timers *)

Inductive Event :=
| ev_open
| ev_message (data : option ChatMessageFromServer)
| ev_error
| ev_close
| ev_timeout (cb : Callback).

(** Removes the oldest pending timer that carries [cb]. *)
Fixpoint take_timer (cb : Callback) (l : list (Z * Callback))
  : option (list (Z * Callback)) :=
  match l with
  | [] => None
  | (d, c) :: l' =>
      if bool_decide (c = cb) then Some l'
      else match take_timer cb l' with
           | Some r => Some ((d, c) :: r)
           | None => None
           end
  end.

Definition run_callback (cb : Callback) (s : State) : State :=
  match cb with
  | cb_connectWebSocket => connectWebSocket s
  | cb_scroll => s
  end.

(** One event delivered to the component.  The socket's [readyState] has
    changed when [open] and [close] are dispatched; a timer fires only if
    it is pending. *)
Definition step (s : State) (e : Event) : State :=
  match e with
  | ev_open => onopen (set_ws (Some OPEN) s)
  | ev_message data => onmessage data s
  | ev_error => onerror s
  | ev_close => onclose (set_ws (Some CLOSED) s)
  | ev_timeout cb =>
      match take_timer cb (timers s) with
      | Some rest => run_callback cb (set_timers rest s)
      | None => s
      end
  end.

Definition run (s : State) (es : list Event) : State := fold_left step es s.

(** The component before [onMount]. *)
Definition initial_state : State :=
  {| messages := []; ws := None; userInput := []; debateTopicInput := [];
     isConnected := false; currentSessionState := idle; showError := None;
     chatContainer := true; thinkingSpeakers := ∅;
     selectedPersonaIds := ["nilm_expert"; "data_scientist"; "moderator"];
     wire := []; timers := [] |}.

(** ** The content renderer *)

(** What [parseMarkdown] can be handed at run time: the declared type is
    [string], the guard at its top also covers [null] and [undefined]. *)
Inductive JsText :=
| js_undefined
| js_null
| js_string (s : jstring).

(** The calls [parseMarkdown] makes to its collaborators, in order. *)
Inductive Call :=
| call_marked_parse (markdownText : jstring)
| call_sanitize (rawHtml : jstring)
| call_console_error.

Module Chars.
Definition amp : N := N_of_ascii "&"%char.
Definition lt : N := N_of_ascii "<"%char.
Definition gt : N := N_of_ascii ">"%char.
Definition quot : N := 34%N.
Definition apos : N := N_of_ascii "'"%char.
Definition newline : N := 10%N.
Definition str (c : N) : jstring := [c].
End Chars.

(** The [catch] block of [parseMarkdown]: the chain of [replace] calls with
    the pattern and the replacement text each of them has in the source. *)
Definition fallback (markdownText : jstring) : jstring :=
  let escapedText :=
    replaceAll Chars.apos (Chars.str Chars.apos)
      (replaceAll Chars.quot (Chars.str Chars.quot)
        (replaceAll Chars.gt (Chars.str Chars.gt)
          (replaceAll Chars.lt (Chars.str Chars.lt)
            (replaceAll Chars.amp (Chars.str Chars.amp) markdownText)))) in
  replaceAll Chars.newline (lit "<br>") escapedText.

Section ContentRenderer.

(** [marked.parse] and [DOMPurify.sanitize]; [None] stands for a thrown
    exception.  [window_defined] is [typeof window !== 'undefined']. *)
Variable marked_parse : jstring -> option jstring.
Variable sanitize : jstring -> option jstring.
Variable window_defined : bool.

(** [parseMarkdown], with the calls it made. *)
Definition parseMarkdown (markdownText : JsText) : jstring * list Call :=
  match markdownText with
  | js_undefined | js_null => ([], [])
  | js_string text =>
      if negb (truthy text) then ([], [])
      else
        match marked_parse text with
        | None =>
            (fallback text, [call_marked_parse text; call_console_error])
        | Some rawHtml =>
            if window_defined then
              match sanitize rawHtml with
              | Some clean =>
                  (clean, [call_marked_parse text; call_sanitize rawHtml])
              | None =>
                  (fallback text,
                   [call_marked_parse text; call_sanitize rawHtml;
                    call_console_error])
              end
            else (rawHtml, [call_marked_parse text])
        end
  end.

End ContentRenderer.

(** ** Definitions that follow the specification's words *)

Module Spec.

(** A-Z folded onto a-z, every other code unit kept. *)
Definition fold_case (c : N) : N :=
  if is_upper c then (c + 32)%N else c.

(** Case-insensitive comparison of two characters. *)
Definition char_eq_ci (a b : N) : bool :=
  (fold_case a =? fold_case b)%N.

Fixpoint startsWith_ci (s needle : jstring) : bool :=
  match needle, s with
  | [], _ => true
  | _ :: _, [] => false
  | a :: needle', b :: s' =>
      if char_eq_ci a b then startsWith_ci s' needle' else false
  end.

(** Case-insensitive substring matching. *)
Fixpoint includes_ci (s needle : jstring) : bool :=
  if startsWith_ci s needle then true
  else match s with
       | [] => false
       | _ :: t => includes_ci t needle
       end.

(** One row of the trigger table: the trigger substrings, the new phase,
    and whether the stored debate topic is cleared. *)
Record Rule := {
  triggers : list jstring;
  new_phase : SessionState;
  clears_topic : bool
}.

(** The ordered trigger table. *)
Definition trigger_table : list Rule :=
  [ {| triggers := [lit "debate started"];
       new_phase := automated_debate; clears_topic := false |};
    {| triggers := [lit "automated debate phase complete"];
       new_phase := user_interaction; clears_topic := false |};
    {| triggers := [lit "generating final summary"];
       new_phase := summarizing; clears_topic := false |};
    {| triggers := [lit "debate concluded"; lit "session ended";
                    lit "session stopped"];
       new_phase := idle; clears_topic := true |} ].

Definition rule_matches (content : jstring) (r : Rule) : bool :=
  existsb (includes_ci content) (triggers r).

(** The first rule of the table that matches. *)
Definition table_lookup (content : jstring) : option Rule :=
  List.find (rule_matches content) trigger_table.

(** The fallback of the renderer contract: the five HTML-significant
    characters escaped, line breaks turned into line-break markup. *)
Definition escape_char (c : N) : jstring :=
  if (c =? Chars.amp)%N then lit "&amp;"
  else if (c =? Chars.lt)%N then lit "&lt;"
  else if (c =? Chars.gt)%N then lit "&gt;"
  else if (c =? Chars.quot)%N then lit "&quot;"
  else if (c =? Chars.apos)%N then lit "&#39;"
  else if (c =? Chars.newline)%N then lit "<br>"
  else Chars.str c.

Fixpoint escaped_fallback (s : jstring) : jstring :=
  match s with
  | [] => []
  | c :: t => escape_char c ++ escaped_fallback t
  end.

(** The most recent event of [sp] in a sequence of envelopes. *)
Definition most_recent (sp : jstring) (es : list ChatMessageFromServer)
  : option ChatMessageFromServer :=
  last (filter (fun e => speaker e = sp) es).

End Spec.

(** ** Runs and sample data used below *)

(** Every character of [s] is white space. *)
Fixpoint all_whitespace (s : jstring) : bool :=
  match s with
  | [] => true
  | c :: t => is_whitespace c && all_whitespace t
  end.

(** One failed reconnection: the pending reconnect timer fires, the new
    socket reports an error and closes. *)
Definition retry_round (s : State) : State :=
  step (step (step s (ev_timeout cb_connectWebSocket)) ev_error) ev_close.

(** Inbound envelopes delivered one after the other. *)
Definition receive_all (s : State) (es : list ChatMessageFromServer) : State :=
  fold_left (fun st e => process_message e st) es s.

(** A [marked.parse] that throws on every input. *)
Definition marked_throws : jstring -> option jstring := fun _ => None.

Definition sanitize_id : jstring -> option jstring := fun html => Some html.

Definition system_msg (text : string) : ChatMessageFromServer :=
  {| id := lit "srv_1"; speaker := lit "System"; content := lit text;
     timestamp := lit "2024-05-01T10:00:00.000Z";
     isThinking := Some false; isRegenerated := None |}.

Definition thinking_msg (who : string) : ChatMessageFromServer :=
  {| id := lit "srv_2"; speaker := lit who; content := [];
     timestamp := lit "2024-05-01T10:00:01.000Z";
     isThinking := Some true; isRegenerated := None |}.

Definition durable_msg (who text : string) : ChatMessageFromServer :=
  {| id := lit "srv_3"; speaker := lit who; content := lit text;
     timestamp := lit "2024-05-01T10:00:02.000Z";
     isThinking := None; isRegenerated := None |}.

Definition clock_a : Clock :=
  {| now := 1714557600000; isoString := lit "2024-05-01T10:00:00.000Z" |}.

(** A second send whose [Date.now()] reading is the same millisecond. *)
Definition clock_b : Clock :=
  {| now := 1714557600000; isoString := lit "2024-05-01T10:00:00.001Z" |}.


(** The six frames of the outbound protocol, as the handlers build them. *)
Definition start_frame (topic : jstring) (persona_ids : list string) : Envelope :=
  {| type := "start_debate"; payload := payload_start topic persona_ids |}.

Definition user_frame (p : SessionState) (text : jstring) : Envelope :=
  {| type := match p with
             | user_interaction => "user_query"
             | automated_debate => "user_interjection"
             | idle | summarizing => EmptyString
             end;
     payload := payload_content text |}.

Definition regenerate_frame : Envelope :=
  {| type := "regenerate_last_ai_turn"; payload := payload_empty |}.


(** Text with the five HTML-significant characters and a line break. *)
Definition markup_sample : jstring :=
  lit "<b>Tom & Jerry's</b>" ++ Chars.str Chars.newline ++ Chars.str Chars.quot.

(** A debate is running and the socket has closed. *)
Definition dropped_debate : State :=
  {| messages := [system_msg "Debate started."];
     ws := Some CLOSED; userInput := lit "I disagree";
     debateTopicInput := lit "Load disaggregation";
     isConnected := false; currentSessionState := automated_debate;
     showError := Some "Disconnected. Reconnecting..."; chatContainer := true;
     thinkingSpeakers := ∅;
     selectedPersonaIds := ["nilm_expert"; "data_scientist"; "moderator"];
     wire := []; timers := [(3000%Z, cb_connectWebSocket)] |}.

(** A debate is running and the socket is open. *)
Definition live_debate : State :=
  {| messages := [system_msg "Debate started."];
     ws := Some OPEN; userInput := lit "I disagree";
     debateTopicInput := lit "Load disaggregation";
     isConnected := true; currentSessionState := automated_debate;
     showError := None; chatContainer := true;
     thinkingSpeakers := ∅;
     selectedPersonaIds := ["nilm_expert"; "data_scientist"; "moderator"];
     wire := []; timers := [] |}.

(** A debate is running; so far the transcript holds one message of
    [System] and one of [User]. *)
Definition only_system_and_user : State :=
  {| messages :=
       [system_msg "Debate started."; durable_msg "User" "Let us begin"];
     ws := Some OPEN; userInput := [];
     debateTopicInput := lit "Load disaggregation";
     isConnected := true; currentSessionState := automated_debate;
     showError := None; chatContainer := true;
     thinkingSpeakers := ∅;
     selectedPersonaIds := ["nilm_expert"; "data_scientist"; "moderator"];
     wire := []; timers := [] |}.

(** The setup form is filled in and the socket is open. *)
Definition ready_to_start : State :=
  {| messages := []; ws := Some OPEN; userInput := [];
     debateTopicInput := lit "Load disaggregation";
     isConnected := true; currentSessionState := idle;
     showError := None; chatContainer := true;
     thinkingSpeakers := ∅;
     selectedPersonaIds := ["nilm_expert"; "moderator"];
     wire := []; timers := [] |}.

(** ** The rest of the script and the markup *)

Definition set_selectedPersonaIds (v : list string) (s : State) : State :=
  {| messages := messages s; ws := ws s; userInput := userInput s;
     debateTopicInput := debateTopicInput s; isConnected := isConnected s;
     currentSessionState := currentSessionState s; showError := showError s;
     chatContainer := chatContainer s; thinkingSpeakers := thinkingSpeakers s;
     selectedPersonaIds := v; wire := wire s;
     timers := timers s |}.

(** [getSpeakerClass]. *)
Definition getSpeakerClass (name : jstring) : string :=
  if eqs name (lit "User") then "user"
  else if eqs name (lit "System") then "system"
  else if includes (toLowerCase name) (lit "mistral") then "mistral"
  else if includes (toLowerCase name) (lit "gemini") then "gemini"
  else if includes (toLowerCase name) (lit "moderator") then "moderator"
  else "other-ai".

(** [$: statusText]. *)
Definition statusText (s : State) : string :=
  if isConnected s then
    if state_is (currentSessionState s) automated_debate then "Debate Active"
    else if state_is (currentSessionState s) user_interaction then "Q&A Active"
    else if state_is (currentSessionState s) summarizing then "Summarizing..."
    else "Idle"
  else "Connecting...".

(** [$: statusClass]. *)
Definition statusClass (s : State) : string :=
  if isConnected s then
    if state_is (currentSessionState s) automated_debate
       || state_is (currentSessionState s) user_interaction then "active"
    else if state_is (currentSessionState s) summarizing then "busy"
    else "idle"
  else "error".

(** *** The blocks of the markup

    [{#if currentSessionState === 'idle' && messages.length === 0}] holds
    the setup form, [{#if currentSessionState === 'idle' && messages.length
    > 0}] the prompt after a session, and the two blocks guarded by
    [automated_debate || user_interaction] the input area and the action
    buttons. *)

Definition setup_shown (s : State) : bool :=
  state_is (currentSessionState s) idle
  && (length (messages s) =? 0)%nat.

Definition ended_prompt_shown (s : State) : bool :=
  state_is (currentSessionState s) idle
  && (0 <? length (messages s))%nat.

Definition input_area_shown (s : State) : bool :=
  state_is (currentSessionState s) automated_debate
  || state_is (currentSessionState s) user_interaction.

Definition action_panel_shown (s : State) : bool :=
  state_is (currentSessionState s) automated_debate
  || state_is (currentSessionState s) user_interaction.

(** The inline handler of "Start New Debate":
    [messages = []; debateTopicInput = ''; showError = null]. *)
Definition start_new_debate (s : State) : State :=
  set_showError None (set_debateTopicInput [] (set_messages [] s)).

(** [disabled] of the Send button. *)
Definition send_button_disabled (s : State) : bool :=
  negb (truthy (trim (userInput s))) || negb (canSendMessage s).

(** What the user can do to the page.  An element takes part only while
    its block is rendered and it is not disabled.  The checkbox group
    rewrites [selectedPersonaIds]; any new value is allowed here. *)
Inductive UserAction :=
| ua_type_topic (text : jstring)
| ua_choose_personas (ids : list string)
| ua_click_start_debate
| ua_click_start_new_debate
| ua_click_clear_history
| ua_type_input (text : jstring)
| ua_keydown_input (key : jstring) (shiftKey : bool) (clk : Clock)
| ua_click_send (clk : Clock)
| ua_click_regenerate
| ua_click_pause_or_end
| ua_click_stop_reset.

(** The [on:keydown] handler of the input:
    [e.key === 'Enter' && !e.shiftKey && (..., handleSendMessage())]. *)
Definition on_keydown (key : jstring) (shiftKey : bool) (clk : Clock)
  (s : State) : State :=
  if eqs key (lit "Enter") && negb shiftKey then handleSendMessage clk s
  else s.

Definition interact (s : State) (a : UserAction) : State :=
  match a with
  | ua_type_topic text =>
      if setup_shown s then set_debateTopicInput text s else s
  | ua_choose_personas ids =>
      if setup_shown s then set_selectedPersonaIds ids s else s
  | ua_click_start_debate =>
      if setup_shown s && canStartDebate s then handleStartDebate s else s
  | ua_click_start_new_debate =>
      if ended_prompt_shown s && isConnected s then start_new_debate s else s
  | ua_click_clear_history =>
      if ended_prompt_shown s then handleStopOrReset s else s
  | ua_type_input text =>
      if input_area_shown s && canSendMessage s then set_userInput text s
      else s
  | ua_keydown_input key shiftKey clk =>
      if input_area_shown s && canSendMessage s
      then on_keydown key shiftKey clk s else s
  | ua_click_send clk =>
      if input_area_shown s && negb (send_button_disabled s)
      then handleSendMessage clk s else s
  | ua_click_regenerate => click_regenerate s
  | ua_click_pause_or_end =>
      if action_panel_shown s && canUseActionButtons s
      then handleEarlyPauseOrSummarize s else s
  | ua_click_stop_reset =>
      if action_panel_shown s
         && state_is (currentSessionState s) automated_debate
         && canUseActionButtons s
      then handleStopOrReset s else s
  end.

(** Everything that reaches the component: socket and timer events, and
    what the user does. *)
Inductive Input :=
| in_socket (e : Event)
| in_user (a : UserAction).

Definition react (s : State) (i : Input) : State :=
  match i with
  | in_socket e => step s e
  | in_user a => interact s a
  end.

Definition session (s : State) (inputs : list Input) : State :=
  fold_left react inputs s.

(** *** Vocabulary of the statements below *)

(** The envelope stays in the transcript. *)
Definition durable (e : ChatMessageFromServer) : bool :=
  negb (flag_set (isThinking e)).

(** A frame of the outbound protocol as the handlers build them: the type
    goes with the shape of the payload, a topic or a content is not blank,
    the persona list is not empty. *)
Definition frame_ok (f : Envelope) : bool :=
  match payload f with
  | payload_start topic ids =>
      String.eqb (type f) "start_debate"
      && negb (all_whitespace topic)
      && negb (length ids =? 0)%nat
  | payload_content text =>
      (String.eqb (type f) "user_query"
       || String.eqb (type f) "user_interjection")
      && negb (all_whitespace text)
  | payload_empty =>
      String.eqb (type f) "regenerate_last_ai_turn"
      || String.eqb (type f) "seek_convergence"
      || String.eqb (type f) "stop_debate"
  end.

(** [s'] has on its wire what [s] had and at most one more frame; that
    frame follows the protocol and is there only if the socket of [s] was
    open. *)
Definition sent_at_most_one (s s' : State) : Prop :=
  exists fr : list Envelope,
    wire s' = wire s ++ fr
    /\ (length fr <= 1)%nat
    /\ Forall (fun f => frame_ok f = true) fr
    /\ (socket_open s = false -> fr = []).

(** The frames of the three commands without payload, and of "/end". *)
Definition seek_frame : Envelope :=
  {| type := "seek_convergence"; payload := payload_empty |}.

Definition stop_frame : Envelope :=
  {| type := "stop_debate"; payload := payload_empty |}.

Definition end_frame : Envelope :=
  {| type := "user_query"; payload := payload_content (lit "/end") |}.

(** The state in which the page lets a frame of each type go out. *)
Definition frame_allowed (s : State) (f : Envelope) : bool :=
  (String.eqb (type f) "start_debate"
   && state_is (currentSessionState s) idle
   && (length (messages s) =? 0)%nat
   && isConnected s)
  || (String.eqb (type f) "user_interjection"
      && state_is (currentSessionState s) automated_debate
      && isConnected s)
  || (String.eqb (type f) "user_query"
      && state_is (currentSessionState s) user_interaction
      && isConnected s)
  || (String.eqb (type f) "regenerate_last_ai_turn"
      && active_phase (currentSessionState s)
      && isConnected s
      && existsb is_ai_message (messages s))
  || (String.eqb (type f) "seek_convergence"
      && state_is (currentSessionState s) automated_debate
      && isConnected s)
  || (String.eqb (type f) "stop_debate"
      && ((state_is (currentSessionState s) automated_debate
           && isConnected s)
          || (state_is (currentSessionState s) idle
              && (0 <? length (messages s))%nat))).

(** How many of the three alternative blocks of the page are rendered. *)
Definition blocks_shown (s : State) : nat :=
  (if setup_shown s then 1 else 0)
  + (if ended_prompt_shown s then 1 else 0)
  + (if input_area_shown s then 1 else 0).

(** The two kinds of timer the script registers. *)
Definition timer_ok (t : Z * Callback) : bool :=
  match t with
  | (d, cb_scroll) => (d =? 50)%Z
  | (d, cb_connectWebSocket) => (d =? 3000)%Z
  end.

(** The state without its error notice. *)
Definition forget_error (s : State) : State := set_showError None s.

(** An envelope that [JSON.parse] rejects. *)
Definition malformed (i : Input) : bool :=
  match i with
  | in_socket (ev_message None) => true
  | _ => false
  end.

(** The connection status the most recent [open] or [close] of a sequence
    of inputs asks for, if there is one. *)
Fixpoint last_link_event (inputs : list Input) : option bool :=
  match inputs with
  | [] => None
  | i :: rest =>
      match last_link_event rest with
      | Some b => Some b
      | None =>
          match i with
          | in_socket ev_open => Some true
          | in_socket ev_close => Some false
          | _ => None
          end
      end
  end.

(** The class of the first keyword of [getSpeakerClass] that occurs in the
    name, letter case aside. *)
Definition keyword_class (name : jstring) : string :=
  match List.find (fun k => Spec.includes_ci name (lit k))
          ["mistral"; "gemini"; "moderator"] with
  | Some k => k
  | None => "other-ai"
  end.

(** A word the script searches a lowered text for: ASCII, no upper-case
    letter, and no [k] (which a Kelvin sign would also lower to). *)
Definition plain_word (w : jstring) : bool :=
  forallb (fun a => (a <? 128)%N && negb (is_upper a) && negb (a =? 0x6B)%N) w.

(** The word ends in [i], the letter a lowered U+0130 starts with. *)
Definition ends_in_i (w : jstring) : bool :=
  match last w with
  | Some a => (a =? 0x69)%N
  | None => false
  end.

(** The text has a capital I with dot, U+0130, in it. *)
Definition has_dotted_I (s : jstring) : bool :=
  existsb (fun c => (c =? 0x130)%N) s.





(** A finished session with one message left on the page. *)
Definition ended_session : State :=
  {| messages := [system_msg "Debate concluded."];
     ws := Some OPEN; userInput := [];
     debateTopicInput := [];
     isConnected := true; currentSessionState := idle;
     showError := None; chatContainer := true;
     thinkingSpeakers := ∅;
     selectedPersonaIds := ["nilm_expert"; "data_scientist"; "moderator"];
     wire := []; timers := [] |}.

(** The question phase, socket open. *)
Definition question_time : State :=
  {| messages := [system_msg "Automated debate phase complete."];
     ws := Some OPEN; userInput := [];
     debateTopicInput := lit "Load disaggregation";
     isConnected := true; currentSessionState := user_interaction;
     showError := None; chatContainer := true;
     thinkingSpeakers := ∅;
     selectedPersonaIds := ["nilm_expert"; "data_scientist"; "moderator"];
     wire := []; timers := [] |}.

(** ** Strings *)

Lemma eqs_spec (a b : jstring) : reflect (a = b) (eqs a b).
Proof.
  revert b. induction a as [|x a IH]; intros [|y b]; cbn;
    try (constructor; congruence).
  destruct (N.eqb_spec x y) as [->|Hne]; cbn.
  - destruct (IH b) as [->|Hne]; constructor; congruence.
  - constructor. congruence.
Qed.

Lemma lit_inj (s1 s2 : string) : lit s1 = lit s2 -> s1 = s2.
Proof.
  revert s2. induction s1 as [|c1 s1 IH]; intros [|c2 s2] H;
    try discriminate; [reflexivity|].
  cbn in H. injection H as Hc H.
  apply (f_equal ascii_of_N) in Hc. rewrite !ascii_N_embedding in Hc.
  rewrite (IH s2 H), Hc. reflexivity.
Qed.

Lemma startsWith_nil (s : jstring) : startsWith s [] = true.
Proof. destruct s; reflexivity. Qed.

Lemma startsWith_ci_nil (s : jstring) : Spec.startsWith_ci s [] = true.
Proof. destruct s; reflexivity. Qed.

Lemma includes_cons (c : N) (s needle : jstring) :
  includes (c :: s) needle = startsWith (c :: s) needle || includes s needle.
Proof. cbn [includes]. destruct (startsWith (c :: s) needle); reflexivity. Qed.

Lemma includes_ci_cons (c : N) (s needle : jstring) :
  Spec.includes_ci (c :: s) needle
  = Spec.startsWith_ci (c :: s) needle || Spec.includes_ci s needle.
Proof.
  cbn [Spec.includes_ci]. destruct (Spec.startsWith_ci (c :: s) needle);
    reflexivity.
Qed.

(** A plain word is untouched by case folding, and none of its letters is
    one of the code units U+0130, U+0307 and U+212A. *)
Lemma plain_unit (a : N) :
  (a <? 128)%N && negb (is_upper a) && negb (a =? 0x6B)%N = true ->
  Spec.fold_case a = a
  /\ (a =? 0x130)%N = false /\ (a =? 0x307)%N = false
  /\ (a =? 0x212A)%N = false /\ (a =? 0x6B)%N = false.
Proof.
  intros H. apply andb_prop in H as [H Hk]. apply andb_prop in H as [Hlt Hup].
  apply negb_true_iff in Hup, Hk. apply N.ltb_lt in Hlt.
  unfold Spec.fold_case. rewrite Hup.
  repeat split; try exact Hk; apply N.eqb_neq; lia.
Qed.

Lemma ends_in_i_tail (a b : N) (w : jstring) :
  ends_in_i (a :: b :: w) = ends_in_i (b :: w).
Proof. reflexivity. Qed.

(** Lowering a text and looking for a plain word at its start is
    case-insensitive comparison, unless the word ends in [i] and the text
    has a U+0130, whose lowered form starts with [i]. *)
Lemma startsWith_lower (s w : jstring) :
  plain_word w = true ->
  ends_in_i w && has_dotted_I s = false ->
  startsWith (toLowerCase s) w = Spec.startsWith_ci s w.
Proof.
  revert w. induction s as [|c s IH]; intros w Hplain Hi.
  - destruct w; reflexivity.
  - destruct w as [|a w]; [now rewrite startsWith_nil|].
    cbn [plain_word forallb] in Hplain.
    apply andb_prop in Hplain as [Ha Hplain].
    destruct (plain_unit a Ha) as (Hfold & H130 & H307 & H212A & Hk).
    assert (Hrest : ends_in_i w && has_dotted_I s = false).
    { destruct w as [|b w]; [reflexivity|].
      rewrite ends_in_i_tail in Hi.
      destruct (ends_in_i (b :: w)); [|reflexivity].
      cbn [andb has_dotted_I existsb] in *.
      apply orb_false_iff in Hi as [_ Hi]. exact Hi. }
    cbn [toLowerCase Spec.startsWith_ci]. unfold Spec.char_eq_ci.
    rewrite Hfold. unfold lower_unit, Spec.fold_case.
    destruct (is_upper c) eqn:Hup.
    { cbn [app startsWith]. rewrite (IH w Hplain Hrest). reflexivity. }
    destruct (N.eqb_spec c 0x130) as [->|Hc130].
    { cbn [app startsWith]. rewrite H130.
      destruct (N.eqb_spec a 0x69) as [->|_]; [|reflexivity].
      destruct w as [|b w].
      - cbn in Hi. discriminate Hi.
      - cbn [plain_word forallb] in Hplain.
        apply andb_prop in Hplain as [Hb _].
        destruct (plain_unit b Hb) as (_ & _ & Hb307 & _).
        cbn [startsWith]. now rewrite Hb307. }
    destruct (N.eqb_spec c 0x212A) as [->|Hc212A].
    { cbn [app startsWith]. now rewrite Hk, H212A. }
    cbn [app startsWith]. rewrite (IH w Hplain Hrest). reflexivity.
Qed.

(** The same for a word anywhere in the text. *)
Lemma includes_lower (s w : jstring) :
  plain_word w = true ->
  ends_in_i w && has_dotted_I s = false ->
  includes (toLowerCase s) w = Spec.includes_ci s w.
Proof.
  intros Hplain. induction s as [|c s IH]; intros Hi.
  - cbn. destruct w; reflexivity.
  - assert (Hrest : ends_in_i w && has_dotted_I s = false).
    { destruct (ends_in_i w); [|reflexivity].
      cbn [andb has_dotted_I existsb] in *.
      apply orb_false_iff in Hi as [_ Hi]. exact Hi. }
    rewrite includes_ci_cons, <- (startsWith_lower (c :: s) w Hplain Hi).
    rewrite <- (IH Hrest). cbn [toLowerCase].
    destruct w as [|a w].
    { rewrite !startsWith_nil.
      destruct (lower_unit c ++ toLowerCase s); reflexivity. }
    cbn [plain_word forallb] in Hplain.
    apply andb_prop in Hplain as [Ha _].
    destruct (plain_unit a Ha) as (_ & _ & H307 & _).
    unfold lower_unit.
    destruct (is_upper c); [apply includes_cons|].
    destruct (c =? 0x130)%N.
    { cbn [app]. rewrite includes_cons, includes_cons.
      assert (startsWith (0x307%N :: toLowerCase s) (a :: w) = false) as ->
        by (cbn [startsWith]; now rewrite H307).
      reflexivity. }
    destruct (c =? 0x212A)%N; apply includes_cons.
Qed.

(** The form used for the words of the script that do not end in [i]:
    there the equation holds for every text. *)
Lemma includes_lower_literal (s w : jstring) :
  plain_word w && negb (ends_in_i w) = true ->
  includes (toLowerCase s) w = Spec.includes_ci s w.
Proof.
  intros H. apply andb_prop in H as [Hplain Hi].
  apply negb_true_iff in Hi.
  apply includes_lower; [exact Hplain | now rewrite Hi].
Qed.

Lemma startsWith_spec (s needle : jstring) :
  startsWith s needle = true <-> exists post, s = needle ++ post.
Proof.
  revert s. induction needle as [|a needle IH]; intros s.
  - split; [intros _; exists s; reflexivity | intros _; destruct s; reflexivity].
  - destruct s as [|b s]; cbn [startsWith].
    + split; [discriminate | intros [post H]; discriminate].
    + destruct (N.eqb_spec a b) as [->|Hne].
      * rewrite IH. split; intros [post H]; exists post.
        -- cbn. now rewrite H.
        -- cbn in H. now injection H.
      * split; [discriminate | intros [post H]; injection H; congruence].
Qed.

(** [includes] is the substring relation. *)
Lemma includes_spec (s needle : jstring) :
  includes s needle = true <->
  exists pre post, s = pre ++ needle ++ post.
Proof.
  induction s as [|b s IH].
  - assert (includes [] needle = startsWith [] needle) as ->
      by (destruct needle; reflexivity).
    rewrite startsWith_spec. split.
    + intros [post H]. exists [], post. exact H.
    + intros [pre [post H]].
      destruct pre; [exists post; exact H | discriminate].
  - rewrite includes_cons, orb_true_iff, startsWith_spec, IH. split.
    + intros [[post H] | [pre [post H]]].
      * exists [], post. exact H.
      * exists (b :: pre), post. cbn. now rewrite H.
    + intros [pre [post H]]. destruct pre as [|c pre]; cbn in H.
      * left. eauto.
      * right. injection H as _ H. eauto.
Qed.

Lemma startsWith_ci_fold (s needle : jstring) :
  Spec.startsWith_ci s needle
  = startsWith (map Spec.fold_case s) (map Spec.fold_case needle).
Proof.
  revert s. induction needle as [|a needle IH]; intros s.
  - destruct s; reflexivity.
  - destruct s as [|b s]; [reflexivity|].
    cbn. unfold Spec.char_eq_ci. now rewrite IH.
Qed.

Lemma includes_ci_fold (s needle : jstring) :
  Spec.includes_ci s needle
  = includes (map Spec.fold_case s) (map Spec.fold_case needle).
Proof.
  induction s as [|b s IH].
  - destruct needle; reflexivity.
  - rewrite includes_ci_cons, startsWith_ci_fold, IH. cbn [map].
    now rewrite includes_cons.
Qed.

Lemma map_split {A B : Type} (f : A -> B) (s : list A) (x y : list B) :
  map f s = x ++ y ->
  exists a b, s = a ++ b /\ map f a = x /\ map f b = y.
Proof.
  revert s. induction x as [|c x IH]; intros s H.
  - exists [], s. auto.
  - destruct s as [|d s]; [discriminate|]. cbn in H.
    injection H as Hc H. apply IH in H as (a & b & -> & <- & <-).
    exists (d :: a), b. cbn. rewrite Hc. auto.
Qed.

(** [Spec.includes_ci] is substring matching up to letter case: some
    substring of [s] has the same case-folded form as [needle]. *)
Lemma includes_ci_spec (s needle : jstring) :
  Spec.includes_ci s needle = true <->
  exists pre w post,
    s = pre ++ w ++ post
    /\ map Spec.fold_case w = map Spec.fold_case needle.
Proof.
  rewrite includes_ci_fold, includes_spec. split.
  - intros (pre' & post' & H).
    apply map_split in H as (pre & rest & -> & _ & H).
    apply map_split in H as (w & post & -> & Hw & _).
    exists pre, w, post. auto.
  - intros (pre & w & post & -> & Hw).
    exists (map Spec.fold_case pre), (map Spec.fold_case post).
    rewrite !map_app, Hw. reflexivity.
Qed.

(** A string is blank for [trim] exactly when all its characters are white
    space. *)
Lemma trimEnd_empty (s : jstring) :
  trimEnd s = [] <-> all_whitespace s = true.
Proof.
  induction s as [|c s IH]; cbn; [tauto|].
  destruct (trimEnd s) eqn:E.
  - destruct (is_whitespace c); cbn.
    + split; [intros _; apply IH; reflexivity | reflexivity].
    + split; discriminate.
  - split; [discriminate|]. intros H. apply andb_prop in H as [_ H].
    apply IH in H. discriminate.
Qed.

Lemma trim_blank (s : jstring) :
  truthy (trim s) = false <-> all_whitespace s = true.
Proof.
  unfold trim. induction s as [|c s IH]; cbn; [tauto|].
  destruct (is_whitespace c) eqn:E; cbn; [exact IH|].
  split; [|discriminate]. rewrite E.
  destruct (trimEnd s); discriminate.
Qed.

(** ** Frame facts *)

(** [scrollToBottom] touches the timers only. *)
Lemma scrollToBottom_frame (s : State) :
  messages (scrollToBottom s) = messages s
  /\ ws (scrollToBottom s) = ws s
  /\ userInput (scrollToBottom s) = userInput s
  /\ debateTopicInput (scrollToBottom s) = debateTopicInput s
  /\ isConnected (scrollToBottom s) = isConnected s
  /\ currentSessionState (scrollToBottom s) = currentSessionState s
  /\ showError (scrollToBottom s) = showError s
  /\ thinkingSpeakers (scrollToBottom s) = thinkingSpeakers s
  /\ selectedPersonaIds (scrollToBottom s) = selectedPersonaIds s
  /\ wire (scrollToBottom s) = wire s.
Proof. unfold scrollToBottom. destruct (chatContainer s); repeat split. Qed.

Ltac scroll_away :=
  repeat match goal with
  | |- context [ ?f (scrollToBottom ?s) ] =>
      lazymatch f with
      | timers => fail
      | chatContainer => fail
      | _ => unfold scrollToBottom at 1; destruct (chatContainer s); cbn
      end
  end.

(** ** The session state machine *)

(** The chain of tests in [apply_system_notice] is the first-match lookup
    in the trigger table. *)
Lemma apply_system_notice_lookup (text : jstring) (s : State) :
  let s' := apply_system_notice (toLowerCase text) s in
  match Spec.table_lookup text with
  | Some r =>
      currentSessionState s' = Spec.new_phase r
      /\ debateTopicInput s' =
           (if Spec.clears_topic r then [] else debateTopicInput s)
  | None =>
      currentSessionState s' = currentSessionState s
      /\ debateTopicInput s' = debateTopicInput s
  end
  /\ messages s' = messages s
  /\ thinkingSpeakers s' = thinkingSpeakers s
  /\ wire s' = wire s.
Proof.
  unfold apply_system_notice, Spec.table_lookup, Spec.trigger_table,
    Spec.rule_matches.
  rewrite !includes_lower_literal by reflexivity.
  cbn [List.find existsb Spec.triggers].
  rewrite !orb_false_r.
  destruct (Spec.includes_ci text (lit "debate started")); [cbn; auto|].
  destruct (Spec.includes_ci text (lit "automated debate phase complete"));
    [cbn; auto|].
  destruct (Spec.includes_ci text (lit "generating final summary")); [cbn; auto|].
  destruct (Spec.includes_ci text (lit "debate concluded")); [cbn; auto|].
  destruct (Spec.includes_ci text (lit "session ended")); [cbn; auto|].
  destruct (Spec.includes_ci text (lit "session stopped")); cbn; auto.
Qed.

(** C1. After a durable message (the [isThinking] flag absent or false)
    has been processed, the phase and the stored topic are given by the
    trigger table: when the speaker is ["System"], the first rule of the
    ordered table one of whose triggers occurs in the content, compared
    case-insensitively, sets the phase ([automated_debate],
    [user_interaction], [summarizing], or [idle] together with an emptied
    topic); when no rule matches, or the speaker is not ["System"], phase
    and topic stay as they were. *)
Theorem C1_phase_follows_trigger_table
  (s : State) (message : ChatMessageFromServer) :
  flag_set (isThinking message) = false ->
  let s' := process_message message s in
  if eqs (speaker message) (lit "System") then
    match Spec.table_lookup (content message) with
    | Some r =>
        currentSessionState s' = Spec.new_phase r
        /\ debateTopicInput s' =
             (if Spec.clears_topic r then [] else debateTopicInput s)
    | None =>
        currentSessionState s' = currentSessionState s
        /\ debateTopicInput s' = debateTopicInput s
    end
  else
    currentSessionState s' = currentSessionState s
    /\ debateTopicInput s' = debateTopicInput s.
Proof.
  intros Hdurable. unfold process_message. rewrite Hdurable.
  destruct (eqs (speaker message) (lit "System")).
  - pose proof (scrollToBottom_frame
      (apply_system_notice (toLowerCase (content message))
         (set_messages (messages
            (set_thinkingSpeakers
               (thinkingSpeakers s ∖ {[speaker message]}) s) ++ [message])
            (set_thinkingSpeakers
               (thinkingSpeakers s ∖ {[speaker message]}) s))))
      as (_ & _ & _ & Ht & _ & Hp & _).
    cbv zeta. rewrite Hp, Ht.
    match goal with
    | |- context [apply_system_notice ?t ?st] =>
        pose proof (apply_system_notice_lookup (content message) st) as [H _]
    end.
    exact H.
  - cbv zeta. scroll_away; auto.
Qed.

(** The scenario of the specification: "Session ended unexpectedly" from
    [System] ends the session and empties the topic, whatever the phase. *)
Lemma C1_phase_follows_trigger_table_witness :
  flag_set (isThinking (system_msg "Session ended unexpectedly")) = false
  /\ currentSessionState
       (process_message (system_msg "Session ended unexpectedly") live_debate)
     = idle
  /\ debateTopicInput
       (process_message (system_msg "Session ended unexpectedly") live_debate)
     = [].
Proof.
  split; [reflexivity|].
  exact (C1_phase_follows_trigger_table live_debate
           (system_msg "Session ended unexpectedly") eq_refl).
Defined.

(** Scenarios: "Debate started." arriving in [idle]; upper-case text; a
    text with two triggers, where the earlier rule of the table wins; a
    trigger in a message that is not from [System]. *)
Example debate_started_from_idle :
  currentSessionState (process_message (system_msg "Debate started.")
                         initial_state) = automated_debate.
Proof. reflexivity. Qed.

Example upper_case_notice :
  currentSessionState (process_message (system_msg "GENERATING FINAL SUMMARY")
                         live_debate) = summarizing.
Proof. reflexivity. Qed.

Example first_rule_wins :
  currentSessionState
    (process_message (system_msg "Session ended; next debate started")
       initial_state) = automated_debate.
Proof. reflexivity. Qed.

Example trigger_from_other_speaker :
  currentSessionState
    (process_message (durable_msg "Moderator" "debate concluded") live_debate)
  = automated_debate.
Proof. reflexivity. Qed.

(** ** The event classifier *)

(** What [process_message] does to the two stores. *)
Lemma process_message_stores (message : ChatMessageFromServer) (s : State) :
  thinkingSpeakers (process_message message s) =
    (if flag_set (isThinking message)
     then {[ speaker message ]} ∪ thinkingSpeakers s
     else thinkingSpeakers s ∖ {[ speaker message ]})
  /\ messages (process_message message s) =
    (if flag_set (isThinking message)
     then messages s
     else messages s ++ [message]).
Proof.
  unfold process_message.
  match goal with
  | |- context [scrollToBottom ?st] =>
      destruct (scrollToBottom_frame st) as (-> & _ & _ & _ & _ & _ & _ & -> & _)
  end.
  destruct (flag_set (isThinking message)); [split; reflexivity|].
  destruct (eqs (speaker message) (lit "System")); [|split; reflexivity].
  match goal with
  | |- context [apply_system_notice ?t ?st] =>
      destruct (apply_system_notice_lookup (content message) st)
        as (_ & -> & -> & _)
  end.
  split; reflexivity.
Qed.

Lemma receive_all_snoc (s : State) (es : list ChatMessageFromServer)
  (e : ChatMessageFromServer) :
  receive_all s (es ++ [e]) = process_message e (receive_all s es).
Proof. unfold receive_all. rewrite fold_left_app. reflexivity. Qed.

Lemma most_recent_snoc (sp : jstring) (es : list ChatMessageFromServer)
  (e : ChatMessageFromServer) :
  Spec.most_recent sp (es ++ [e]) =
    if bool_decide (speaker e = sp) then Some e else Spec.most_recent sp es.
Proof.
  unfold Spec.most_recent. rewrite filter_app.
  case_bool_decide as H.
  - rewrite filter_cons_True by exact H. rewrite filter_nil, last_snoc.
    reflexivity.
  - rewrite filter_cons_False by exact H. rewrite filter_nil, app_nil_r.
    reflexivity.
Qed.

(** C2. A thinking envelope adds its speaker to the thinking set and leaves
    the transcript alone; any other envelope removes its speaker from the
    thinking set (which changes nothing when the speaker is not in it) and
    appends exactly that one envelope to the transcript.  Hence, after any
    sequence of envelopes, a speaker is in the thinking set exactly when the
    most recent envelope of that speaker was a thinking one; a speaker
    without any envelope in the sequence is in the set exactly when it was
    there before. *)
Theorem C2_thinking_set_tracks_last_event (s : State) :
  (forall message : ChatMessageFromServer,
     let s' := process_message message s in
     if flag_set (isThinking message) then
       thinkingSpeakers s' = {[ speaker message ]} ∪ thinkingSpeakers s
       /\ messages s' = messages s
     else
       thinkingSpeakers s' = thinkingSpeakers s ∖ {[ speaker message ]}
       /\ (speaker message ∉ thinkingSpeakers s ->
           thinkingSpeakers s' = thinkingSpeakers s)
       /\ messages s' = messages s ++ [message])
  /\ (forall (es : list ChatMessageFromServer) (sp : jstring),
        sp ∈ thinkingSpeakers (receive_all s es) <->
        match Spec.most_recent sp es with
        | Some e => flag_set (isThinking e) = true
        | None => sp ∈ thinkingSpeakers s
        end).
Proof.
  split.
  - intros message s'. subst s'.
    destruct (process_message_stores message s) as [Ht Hm].
    destruct (flag_set (isThinking message)).
    + split; assumption.
    + split; [assumption|]. split; [|assumption].
      intros Hnot. rewrite Ht. apply set_eq. intros x.
      rewrite elem_of_difference, elem_of_singleton.
      split; [tauto|]. intros Hx. split; [exact Hx|].
      intros ->. exact (Hnot Hx).
  - intros es sp. induction es as [|e es IH] using rev_ind.
    + reflexivity.
    + rewrite receive_all_snoc, most_recent_snoc.
      destruct (process_message_stores e (receive_all s es)) as [Ht _].
      rewrite Ht. case_bool_decide as Hsp.
      * destruct (flag_set (isThinking e));
          rewrite ?elem_of_union, ?elem_of_difference, ?elem_of_singleton;
          intuition congruence.
      * rewrite <- IH. destruct (flag_set (isThinking e));
          rewrite ?elem_of_union, ?elem_of_difference, ?elem_of_singleton;
          intuition congruence.
Qed.

(** ** The connection manager *)

Lemma onopen_phase (s : State) :
  currentSessionState (onopen s) = currentSessionState s.
Proof. unfold onopen. destruct s as [? ? ? ? ? [] ? ? ? ? ? ?]; reflexivity. Qed.

Lemma take_timer_last (cb : Callback) (d : Z) (l : list (Z * Callback)) :
  last l = Some (d, cb) -> exists rest, take_timer cb l = Some rest.
Proof.
  induction l as [|[d' c] l IH]; [discriminate|].
  intros H. simpl. case_bool_decide as Hc; [eauto|].
  destruct l as [|x l'].
  - simpl in H. congruence.
  - destruct IH as [rest ->]; [exact H|]. eauto.
Qed.

(** One failed reconnection leaves the component disconnected, in the same
    phase, with a fresh 3000 ms reconnect timer as the newest timer. *)
Lemma retry_round_effect (s : State) :
  isConnected (retry_round s) = false
  /\ thinkingSpeakers (retry_round s) = ∅
  /\ currentSessionState (retry_round s) = currentSessionState s
  /\ last (timers (retry_round s)) = Some (3000%Z, cb_connectWebSocket).
Proof.
  unfold retry_round, step at 1 2. unfold onclose, onerror. cbn.
  rewrite last_snoc. repeat split.
  unfold step. destruct (take_timer cb_connectWebSocket (timers s));
    reflexivity.
Qed.

Lemma retry_rounds_effect (n : nat) (s : State) :
  last (timers s) = Some (3000%Z, cb_connectWebSocket) ->
  isConnected s = false ->
  thinkingSpeakers s = ∅ ->
  let sn := Nat.iter n retry_round s in
  isConnected sn = false
  /\ thinkingSpeakers sn = ∅
  /\ currentSessionState sn = currentSessionState s
  /\ last (timers sn) = Some (3000%Z, cb_connectWebSocket).
Proof.
  intros Hl Hc Ht sn. subst sn. induction n as [|n IH]; [auto|].
  change (Nat.iter (S n) retry_round s)
    with (retry_round (Nat.iter n retry_round s)).
  destruct IH as (_ & _ & IHp & _).
  destruct (retry_round_effect (Nat.iter n retry_round s))
    as (H1 & H2 & H3 & H4).
  rewrite H3, IHp. auto.
Qed.

(** C5. [ws.onclose], in whatever state it runs, sets the status to
    disconnected, empties the thinking set, keeps the phase and registers a
    reconnect timer of 3000 ms.  After any number [n] of reconnections that
    failed in turn, the status is still disconnected, the phase is still
    the one before the first close, and the newest pending timer is again a
    reconnect with the same delay of 3000 ms; when that timer fires a new
    socket is opened, and once it opens the status is connected and the
    phase is still the same. *)
Theorem C5_close_schedules_fixed_delay_reconnect (s : State) :
  isConnected (onclose s) = false
  /\ thinkingSpeakers (onclose s) = ∅
  /\ currentSessionState (onclose s) = currentSessionState s
  /\ timers (onclose s) = timers s ++ [(3000%Z, cb_connectWebSocket)]
  /\ forall n : nat,
       let sn := Nat.iter n retry_round (onclose s) in
       isConnected sn = false
       /\ thinkingSpeakers sn = ∅
       /\ currentSessionState sn = currentSessionState s
       /\ last (timers sn) = Some (3000%Z, cb_connectWebSocket)
       /\ ws (step sn (ev_timeout cb_connectWebSocket)) = Some CONNECTING
       /\ isConnected
            (step (step sn (ev_timeout cb_connectWebSocket)) ev_open) = true
       /\ currentSessionState
            (step (step sn (ev_timeout cb_connectWebSocket)) ev_open)
          = currentSessionState s.
Proof.
  repeat split.
  all: intros.
  all: try (apply (retry_rounds_effect n (onclose s));
            [cbn; apply last_snoc | reflexivity | reflexivity]).
  - destruct (retry_rounds_effect n (onclose s)) as (_ & _ & _ & Hl);
      [cbn; apply last_snoc | reflexivity | reflexivity |].
    apply take_timer_last in Hl as [rest Hr].
    unfold step. rewrite Hr. reflexivity.
  - unfold step at 1. unfold onopen.
    repeat match goal with |- context [if ?b then _ else _] => destruct b end;
      reflexivity.
  - unfold step at 1. rewrite onopen_phase. cbn.
    destruct (retry_rounds_effect n (onclose s)) as (_ & _ & Hp & Hl);
      [cbn; apply last_snoc | reflexivity | reflexivity |].
    apply take_timer_last in Hl as [rest Hr].
    unfold step. rewrite Hr. cbn. exact Hp.
Qed.

(** ** The command dispatcher *)

(** The blank test of the handlers, [!text.trim()], holds exactly for the
    strings made of white space only. *)
Lemma blank_test (text : jstring) :
  negb (truthy (trim text)) = all_whitespace text.
Proof.
  destruct (all_whitespace text) eqn:E.
  - apply trim_blank in E. rewrite E. reflexivity.
  - destruct (truthy (trim text)) eqn:T; [reflexivity|].
    apply trim_blank in T. congruence.
Qed.

Lemma active_phase_tests (p : SessionState) :
  negb (state_is p automated_debate) && negb (state_is p user_interaction)
  = negb (active_phase p).
Proof. destruct p; reflexivity. Qed.

Lemma sendMessageToWs_wire (ty : string) (p : Payload) (s : State) :
  wire (sendMessageToWs ty p s) =
    wire s ++ (if socket_open s then [ {| type := ty; payload := p |} ] else []).
Proof.
  unfold sendMessageToWs. destruct (socket_open s); cbn;
    [reflexivity | now rewrite app_nil_r].
Qed.


(** White space outside ASCII is blank too: a topic that is one no-break
    space is refused, and an input that is one ideographic space is not
    sent. *)
Example no_break_space_topic :
  handleStartDebate (set_debateTopicInput [0xA0%N] ready_to_start)
  = set_showError (Some "Please enter a debate topic.")
      (set_debateTopicInput [0xA0%N] ready_to_start).
Proof. reflexivity. Qed.

Example ideographic_space_input :
  handleSendMessage clock_a (set_userInput [0x3000%N] live_debate)
  = set_userInput [0x3000%N] live_debate.
Proof. reflexivity. Qed.

(** C4. [handleSendMessage] sends nothing and appends nothing when the
    text is empty or white space only, or when the phase is neither
    [automated_debate] nor [user_interaction].  Otherwise it appends the
    locally built message, whose speaker is ["User"], and the only frame it
    can put on the wire (it does when the socket is open) has type
    ["user_query"] in [user_interaction] and ["user_interjection"] in
    [automated_debate], with the text as its content. *)
Theorem C4_send_user_message_gate (clk : Clock) (s : State) :
  let s' := handleSendMessage clk s in
  if all_whitespace (userInput s)
     || negb (active_phase (currentSessionState s))
  then
    wire s' = wire s /\ messages s' = messages s
  else
    messages s' = messages s ++ [userMsg clk (userInput s)]
    /\ speaker (userMsg clk (userInput s)) = lit "User"
    /\ content (userMsg clk (userInput s)) = userInput s
    /\ wire s' =
         wire s ++
         (if socket_open s
          then [user_frame (currentSessionState s) (userInput s)]
          else []).
Proof.
  unfold handleSendMessage. rewrite blank_test, active_phase_tests.
  destruct (all_whitespace (userInput s)); [cbn; auto|].
  destruct (active_phase (currentSessionState s)) eqn:Hactive;
    [|cbn; auto].
  cbn [orb negb]. cbv zeta.
  match goal with
  | |- context [scrollToBottom ?st] =>
      destruct (scrollToBottom_frame st)
        as (-> & _ & _ & _ & _ & _ & _ & _ & _ & ->)
  end.
  cbn [messages wire set_userInput set_messages].
  rewrite sendMessageToWs_wire.
  repeat split.
  - unfold sendMessageToWs. destruct (socket_open s); reflexivity.
  - unfold user_frame.
    destruct (currentSessionState s); try discriminate; reflexivity.
Qed.

(** C6. [handleStartDebate] with a topic that is empty or white space only,
    or with no persona selected, leaves an error notice, sends nothing and
    changes nothing else (transcript, thinking set, phase and topic
    included).  Otherwise it empties the transcript and the thinking set,
    keeps phase and topic, and hands to [sendMessageToWs] the
    ["start_debate"] frame with the topic and the persona ids, which is
    what goes on the wire over an open socket. *)
Theorem C6_start_debate_validation (s : State) :
  let s' := handleStartDebate s in
  if all_whitespace (debateTopicInput s)
     || (length (selectedPersonaIds s) =? 0)%nat
  then
    (exists notice, s' = set_showError (Some notice) s)
    /\ wire s' = wire s
    /\ messages s' = messages s
    /\ thinkingSpeakers s' = thinkingSpeakers s
    /\ currentSessionState s' = currentSessionState s
    /\ debateTopicInput s' = debateTopicInput s
  else
    messages s' = []
    /\ thinkingSpeakers s' = ∅
    /\ currentSessionState s' = currentSessionState s
    /\ debateTopicInput s' = debateTopicInput s
    /\ wire s' =
         wire s ++
         (if socket_open s
          then [start_frame (debateTopicInput s) (selectedPersonaIds s)]
          else []).
Proof.
  unfold handleStartDebate. rewrite blank_test.
  destruct (all_whitespace (debateTopicInput s)); [cbn; eauto 10|].
  destruct (selectedPersonaIds s) as [|p ps] eqn:Hids; [cbn; eauto 10|].
  cbn [orb length Nat.ltb Nat.leb Nat.eqb]. cbv zeta.
  rewrite sendMessageToWs_wire.
  unfold sendMessageToWs, socket_open, start_frame. cbn.
  rewrite Hids.
  destruct (ws s) as [[]|]; cbn; auto.
Qed.

Lemma noAiMessagesYet_existsb (s : State) :
  noAiMessagesYet s = negb (existsb is_ai_message (messages s)).
Proof.
  unfold noAiMessagesYet. induction (messages s) as [|m l IH]; [reflexivity|].
  cbn [existsb]. destruct (is_ai_message m) eqn:E.
  - rewrite filter_cons_True by exact E. reflexivity.
  - rewrite filter_cons_False by congruence. exact IH.
Qed.

(** [handleRegenerate] itself looks at the phase only. *)
Lemma handleRegenerate_phase_only (s : State) :
  handleRegenerate s =
    if active_phase (currentSessionState s)
    then sendMessageToWs "regenerate_last_ai_turn" payload_empty s
    else s.
Proof.
  unfold handleRegenerate. rewrite active_phase_tests.
  destruct (active_phase (currentSessionState s)); reflexivity.
Qed.

(** The button does send when it is enabled. *)
Lemma click_regenerate_sends (s : State) :
  isConnected s = true ->
  socket_open s = true ->
  active_phase (currentSessionState s) = true ->
  existsb is_ai_message (messages s) = true ->
  wire (click_regenerate s) = wire s ++ [regenerate_frame].
Proof.
  intros Hc Ho Ha He.
  unfold click_regenerate, regenerate_button_rendered,
    regenerate_button_disabled, canUseActionButtons.
  rewrite noAiMessagesYet_existsb, Hc, Ha, He. cbn.
  rewrite handleRegenerate_phase_only, Ha, sendMessageToWs_wire, Ho.
  reflexivity.
Qed.

(** C7. A click on "Regenerate Last AI" does nothing at all, and so sends
    nothing, unless the phase is [automated_debate] or [user_interaction]
    and the transcript holds a message whose speaker is neither ["User"]
    nor ["System"]. *)
Theorem C7_regenerate_requires_ai_message (s : State) :
  active_phase (currentSessionState s)
  && existsb is_ai_message (messages s) = false ->
  click_regenerate s = s.
Proof.
  intros H.
  unfold click_regenerate, regenerate_button_rendered,
    regenerate_button_disabled, canUseActionButtons.
  rewrite noAiMessagesYet_existsb.
  destruct (active_phase (currentSessionState s)); [|reflexivity].
  cbn in H. rewrite H. cbn. rewrite orb_true_r. reflexivity.
Qed.

(** The scenario of the specification: the transcript holds a [System]
    message and a [User] message only. *)
Lemma C7_regenerate_requires_ai_message_witness :
  (active_phase (currentSessionState only_system_and_user)
   && existsb is_ai_message (messages only_system_and_user) = false)
  /\ click_regenerate only_system_and_user = only_system_and_user
  /\ wire (click_regenerate only_system_and_user) = [].
Proof.
  split; [reflexivity|].
  pose proof (C7_regenerate_requires_ai_message only_system_and_user eq_refl)
    as H.
  split; [exact H | rewrite H; reflexivity].
Defined.

(** *** Identifiers of the local messages *)

(** Two local messages carry the same id exactly when [Date.now()] gave the
    same reading for both. *)
Lemma userMsg_id_eq (c1 c2 : Clock) (t1 t2 : jstring) :
  id (userMsg c1 t1) = id (userMsg c2 t2) <-> now c1 = now c2.
Proof.
  cbn. split.
  - intros H. injection H as H. exact (pretty_Z_inj _ _ (lit_inj _ _ H)).
  - intros ->. reflexivity.
Qed.

(** C9. Two sends whose [Date.now()] readings fall in the same millisecond
    leave two different transcript entries that carry the same id. *)
Theorem C9_same_millisecond_same_id :
  let s1 := handleSendMessage clock_a live_debate in
  let s2 := handleSendMessage clock_b (set_userInput (lit "Me again") s1) in
  exists m1 m2 : ChatMessageFromServer,
    messages s2 !! 1%nat = Some m1
    /\ messages s2 !! 2%nat = Some m2
    /\ m1 <> m2
    /\ id m1 = id m2.
Proof.
  exists (userMsg clock_a (lit "I disagree")), (userMsg clock_b (lit "Me again")).
  split; [reflexivity|]. split; [reflexivity|].
  split; [discriminate|].
  apply userMsg_id_eq. reflexivity.
Qed.

(** ** The content renderer *)

Lemma replaceAll_self (c : N) (s : jstring) :
  replaceAll c (Chars.str c) s = s.
Proof.
  induction s as [|a s IH]; [reflexivity|].
  cbn [replaceAll]. rewrite IH.
  destruct (N.eqb_spec a c) as [->|_]; reflexivity.
Qed.

(** Each of the five [replace] calls of the [catch] block puts back the
    character it matched, so only the line breaks are rewritten. *)
Lemma fallback_only_line_breaks (text : jstring) :
  fallback text = replaceAll Chars.newline (lit "<br>") text.
Proof. unfold fallback. rewrite !replaceAll_self. reflexivity. Qed.

(** When a collaborator throws, [parseMarkdown] still returns: the text
    with its line breaks rewritten. *)
Lemma parseMarkdown_catches
  (marked_parse sanitize : jstring -> option jstring) (window_defined : bool)
  (text : jstring) :
  text <> [] ->
  marked_parse text = None ->
  fst (parseMarkdown marked_parse sanitize window_defined (js_string text))
  = replaceAll Chars.newline (lit "<br>") text.
Proof.
  intros Hne Hthrow. unfold parseMarkdown.
  destruct text; [congruence|]. cbn [truthy negb]. rewrite Hthrow.
  apply fallback_only_line_breaks.
Qed.

(** C8. On [markup_sample], with a [marked.parse] that throws, the renderer
    returns the text with the line break turned into [<br>] and with &, <,
    >, the double quote and the single quote left as they are, where the
    contract asks for their escaped forms. *)
Theorem C8_fallback_does_not_escape :
  fst (parseMarkdown marked_throws sanitize_id true (js_string markup_sample))
  = lit "<b>Tom & Jerry's</b><br>" ++ Chars.str Chars.quot
  /\ Spec.escaped_fallback markup_sample
     = lit "&lt;b&gt;Tom &amp; Jerry&#39;s&lt;/b&gt;<br>&quot;"
  /\ fst (parseMarkdown marked_throws sanitize_id true
            (js_string markup_sample))
     <> Spec.escaped_fallback markup_sample.
Proof. repeat split. discriminate. Qed.

(** C10. For [undefined], [null] and the empty string, [parseMarkdown]
    returns the empty string and calls neither [marked.parse] nor
    [DOMPurify.sanitize] (nor anything else), whatever these would do. *)
Theorem C10_empty_input_short_circuit
  (marked_parse sanitize : jstring -> option jstring) (window_defined : bool) :
  parseMarkdown marked_parse sanitize window_defined js_undefined
  = ([], [])
  /\ parseMarkdown marked_parse sanitize window_defined js_null
     = ([], [])
  /\ parseMarkdown marked_parse sanitize window_defined (js_string [])
     = ([], []).
Proof. repeat split. Qed.

(** Any other string does reach [marked.parse]. *)
Lemma parseMarkdown_calls_marked
  (marked_parse sanitize : jstring -> option jstring) (window_defined : bool)
  (text : jstring) :
  text <> [] ->
  head (snd (parseMarkdown marked_parse sanitize window_defined
               (js_string text)))
  = Some (call_marked_parse text).
Proof.
  intros Hne. unfold parseMarkdown. destruct text; [congruence|].
  cbn [truthy negb].
  destruct (marked_parse _); [|reflexivity].
  destruct window_defined; [|reflexivity].
  destruct (sanitize _); reflexivity.
Qed.

(** ** A session from mount to disconnect *)

Example start_debate_frame :
  wire (handleStartDebate ready_to_start)
  = [start_frame (lit "Load disaggregation") ["nilm_expert"; "moderator"]].
Proof. reflexivity. Qed.

Example thinking_then_answer :
  thinkingSpeakers (process_message (thinking_msg "Gemini") live_debate)
  = {[ lit "Gemini" ]} ∪ ∅
  /\ thinkingSpeakers
       (receive_all live_debate
          [thinking_msg "Gemini"; durable_msg "Gemini" "Here is my view."])
     = ({[ lit "Gemini" ]} ∪ ∅) ∖ {[ lit "Gemini" ]}.
Proof.
  split.
  - exact (proj1 (process_message_stores (thinking_msg "Gemini") live_debate)).
  - unfold receive_all. cbn [fold_left].
    rewrite (proj1 (process_message_stores (durable_msg "Gemini" _) _)).
    rewrite (proj1 (process_message_stores (thinking_msg "Gemini") _)).
    reflexivity.
Qed.

(** After mount the socket opens, the debate starts, and the channel drops:
    the phase survives, the status does not, and two timers are pending:
    the scroll of the one message and the reconnect. *)
Example mount_debate_drop :
  let s := run (connectWebSocket initial_state)
             [ev_open; ev_message (Some (system_msg "Debate started."));
              ev_close] in
  currentSessionState s = automated_debate
  /\ isConnected s = false
  /\ ws s = Some CLOSED
  /\ messages s = [system_msg "Debate started."]
  /\ timers s = [(50%Z, cb_scroll); (3000%Z, cb_connectWebSocket)].
Proof. repeat split. Qed.

(** ** Speaker classes and the status indicator *)

(** X1. [getSpeakerClass] gives ["user"] to the name ["User"] only and
    ["system"] to the name ["System"] only, both compared exactly; every
    other name that has no U+0130 in it gets the class of the first of the
    keywords mistral, gemini, moderator that occurs in it in any letter
    case, and ["other-ai"] when none does.  (A U+0130 is lowered to [i]
    and U+0307, so that a name ending in "GEMIN" and U+0130 counts as
    gemini although it does not spell the word.) *)
Theorem X1_speaker_class_by_first_keyword (name : jstring) :
  (getSpeakerClass name = "user" <-> name = lit "User")
  /\ (getSpeakerClass name = "system" <-> name = lit "System")
  /\ (eqs name (lit "User") || eqs name (lit "System") = false ->
      has_dotted_I name = false ->
      getSpeakerClass name = keyword_class name).
Proof.
  unfold getSpeakerClass, keyword_class.
  destruct (eqs_spec name (lit "User")) as [->|HU].
  { split; [split; reflexivity|]. split.
    - split; intros H; [discriminate | apply lit_inj in H; discriminate].
    - intros H. discriminate H. }
  destruct (eqs_spec name (lit "System")) as [->|HS].
  { split; [split; intros H; [discriminate | apply lit_inj in H; discriminate]|].
    split; [split; reflexivity|]. intros H. discriminate H. }
  split; [|split].
  - split; [|intros H; contradiction].
    destruct (includes (toLowerCase name) (lit "mistral"));
      [discriminate|].
    destruct (includes (toLowerCase name) (lit "gemini"));
      [discriminate|].
    destruct (includes (toLowerCase name) (lit "moderator")); discriminate.
  - split; [|intros H; contradiction].
    destruct (includes (toLowerCase name) (lit "mistral"));
      [discriminate|].
    destruct (includes (toLowerCase name) (lit "gemini"));
      [discriminate|].
    destruct (includes (toLowerCase name) (lit "moderator")); discriminate.
  - intros _ Hdot.
    rewrite !includes_lower
      by (reflexivity || (rewrite Hdot; apply andb_false_r)).
    cbn [List.find].
    destruct (Spec.includes_ci name (lit "mistral")); [reflexivity|].
    destruct (Spec.includes_ci name (lit "gemini")); [reflexivity|].
    destruct (Spec.includes_ci name (lit "moderator")); reflexivity.
Qed.

(** A name that ends in U+0130 after "GEMIN": lowering puts an [i] there,
    and the name is classed as gemini. *)
Example dotted_capital_I_counts_as_i :
  getSpeakerClass (lit "GEMIN" ++ [0x130%N]) = "gemini"
  /\ keyword_class (lit "GEMIN" ++ [0x130%N]) = "other-ai".
Proof. split; reflexivity. Qed.

(** X2. The status indicator follows the gates of the commands: its class
    is ["error"] exactly when the component is disconnected, ["active"]
    exactly when sending is allowed, ["idle"] exactly when a debate can be
    started, and the text shown goes with the class. *)
Theorem X2_status_indicator_follows_gates (s : State) :
  (statusClass s = "error" <-> isConnected s = false)
  /\ (statusClass s = "active" <-> canSendMessage s = true)
  /\ (statusClass s = "idle" <-> canStartDebate s = true)
  /\ (statusClass s = "error" <-> statusText s = "Connecting...")
  /\ (statusClass s = "active" <->
      statusText s = "Debate Active" \/ statusText s = "Q&A Active")
  /\ (statusClass s = "busy" <-> statusText s = "Summarizing...")
  /\ (statusClass s = "idle" <-> statusText s = "Idle").
Proof.
  unfold statusClass, statusText, canSendMessage, canStartDebate.
  destruct (isConnected s), (currentSessionState s); cbn.
  all: repeat split; intros; try discriminate; try reflexivity; auto.
  all: match goal with H : _ \/ _ |- _ => destruct H; discriminate end.
Qed.

(** ** Sequences of envelopes *)

Lemma receive_all_cons (s : State) (e : ChatMessageFromServer)
  (es : list ChatMessageFromServer) :
  receive_all s (e :: es) = receive_all (process_message e s) es.
Proof. reflexivity. Qed.

(** X3. After any sequence of envelopes the transcript is the old
    transcript followed by the envelopes that were not thinking events, in
    the order of arrival: none lost, none twice, none reordered. *)
Theorem X3_transcript_keeps_durable_envelopes_in_order
  (s : State) (es : list ChatMessageFromServer) :
  messages (receive_all s es) = messages s ++ List.filter durable es.
Proof.
  revert s. induction es as [|e es IH]; intros s.
  - cbn. now rewrite app_nil_r.
  - rewrite receive_all_cons, IH.
    rewrite (proj2 (process_message_stores e s)).
    cbn [List.filter]. unfold durable at 2.
    destruct (flag_set (isThinking e)); cbn [negb];
      [reflexivity | now rewrite <- app_assoc].
Qed.

Lemma receive_all_has_ai_message
  (s : State) (es : list ChatMessageFromServer) :
  existsb is_ai_message (messages (receive_all s es))
  = existsb is_ai_message (messages s)
    || existsb (fun e => durable e && is_ai_message e) es.
Proof.
  revert s. induction es as [|e es IH]; intros s.
  - cbn. now rewrite orb_false_r.
  - rewrite receive_all_cons, IH.
    rewrite (proj2 (process_message_stores e s)).
    cbn [existsb]. unfold durable at 2.
    destruct (flag_set (isThinking e)); cbn [negb andb orb];
      [reflexivity|].
    rewrite existsb_app. cbn [existsb].
    rewrite orb_false_r, orb_assoc. reflexivity.
Qed.

Lemma handleSendMessage_messages (clk : Clock) (s : State) :
  messages (handleSendMessage clk s) =
    messages s ++
    (if all_whitespace (userInput s)
        || negb (active_phase (currentSessionState s))
     then [] else [userMsg clk (userInput s)]).
Proof.
  unfold handleSendMessage. rewrite blank_test, active_phase_tests.
  destruct (all_whitespace (userInput s)); [cbn; now rewrite app_nil_r|].
  destruct (active_phase (currentSessionState s));
    [|cbn; now rewrite app_nil_r].
  cbn [orb negb]. cbv zeta.
  match goal with
  | |- context [scrollToBottom ?st] =>
      destruct (scrollToBottom_frame st) as (-> & _)
  end.
  cbn [messages set_userInput set_messages].
  unfold sendMessageToWs. destruct (socket_open s); reflexivity.
Qed.

(** X4. "Regenerate Last AI" stays disabled for want of an AI message until
    an envelope arrives that is not a thinking event and whose speaker is
    neither ["User"] nor ["System"]; from then on further envelopes never
    take that back, and the user's own messages never count. *)
Theorem X4_ai_message_gate_opens_once
  (clk : Clock) (s : State) (es : list ChatMessageFromServer) :
  noAiMessagesYet (receive_all s es)
  = noAiMessagesYet s
    && negb (existsb (fun e => durable e && is_ai_message e) es)
  /\ noAiMessagesYet (handleSendMessage clk s) = noAiMessagesYet s.
Proof.
  rewrite !noAiMessagesYet_existsb. split.
  - rewrite receive_all_has_ai_message, negb_orb. reflexivity.
  - rewrite handleSendMessage_messages, existsb_app.
    destruct (all_whitespace (userInput s)
              || negb (active_phase (currentSessionState s)));
      cbn; now rewrite ?orb_false_r.
Qed.

(** ** Whole sessions *)

(** Reduces the projections of updated states. *)
Ltac project :=
  cbn [messages ws userInput debateTopicInput isConnected currentSessionState
       showError chatContainer thinkingSpeakers selectedPersonaIds wire timers
       set_showError set_messages set_thinkingSpeakers set_currentSessionState
       set_debateTopicInput set_userInput set_wire set_timers set_ws
       set_isConnected set_selectedPersonaIds].

(** Splits on a condition that has no condition inside. *)
Ltac split_if :=
  match goal with
  | |- context [if ?b then _ else _] =>
      lazymatch b with
      | context [if _ then _ else _] => fail
      | _ => destruct b eqn:?
      end
  end.

Ltac handler_cases := project; repeat (split_if; project).

(** Decides the comparisons of two given phases. *)
Ltac eval_state_is :=
  repeat match goal with
  | |- context [state_is ?a ?b] =>
      let v := eval vm_compute in (state_is a b) in
      change (state_is a b) with v
  end.

Ltac open_handlers :=
  unfold handleStartDebate, handleSendMessage, handleRegenerate,
    handleEarlyPauseOrSummarize, handleStopOrReset, start_new_debate,
    on_keydown, click_regenerate, sendMessageToWs, scrollToBottom,
    onopen, onclose, onerror, connectWebSocket; cbv zeta.

Lemma session_snoc (s : State) (inputs : list Input) (i : Input) :
  session s (inputs ++ [i]) = react (session s inputs) i.
Proof. unfold session. rewrite fold_left_app. reflexivity. Qed.

Lemma session_cons (s : State) (i : Input) (inputs : list Input) :
  session s (i :: inputs) = session (react s i) inputs.
Proof. reflexivity. Qed.

(** *** The phase *)

Lemma handlers_keep_phase (clk : Clock) (s : State) :
  currentSessionState (handleStartDebate s) = currentSessionState s
  /\ currentSessionState (handleSendMessage clk s) = currentSessionState s
  /\ currentSessionState (handleRegenerate s) = currentSessionState s
  /\ currentSessionState (handleEarlyPauseOrSummarize s)
     = currentSessionState s
  /\ currentSessionState (handleStopOrReset s) = currentSessionState s
  /\ currentSessionState (start_new_debate s) = currentSessionState s.
Proof. repeat split; open_handlers; handler_cases; reflexivity. Qed.

Lemma interact_phase (s : State) (a : UserAction) :
  currentSessionState (interact s a) = currentSessionState s.
Proof.
  destruct a; unfold interact, on_keydown, click_regenerate; handler_cases;
    try reflexivity.
  all: match goal with
       | |- context [handleSendMessage ?c _] =>
           apply (handlers_keep_phase c s)
       | _ => apply (handlers_keep_phase clock_a s)
       end.
Qed.

Lemma process_message_phase (m : ChatMessageFromServer) (s : State) :
  currentSessionState (process_message m s) =
    if durable m && eqs (speaker m) (lit "System") then
      match Spec.table_lookup (content m) with
      | Some r => Spec.new_phase r
      | None => currentSessionState s
      end
    else currentSessionState s.
Proof.
  unfold process_message, durable.
  match goal with
  | |- context [scrollToBottom ?st] =>
      destruct (scrollToBottom_frame st) as (_ & _ & _ & _ & _ & -> & _)
  end.
  destruct (flag_set (isThinking m)); [reflexivity|].
  destruct (eqs (speaker m) (lit "System")); [|reflexivity].
  cbn [negb andb].
  match goal with
  | |- context [apply_system_notice ?t ?st] =>
      destruct (apply_system_notice_lookup (content m) st) as (H & _)
  end.
  destruct (Spec.table_lookup (content m)); destruct H as [H _]; exact H.
Qed.

Lemma step_phase (s : State) (e : Event) :
  (forall m, e <> ev_message (Some m)) ->
  currentSessionState (step s e) = currentSessionState s.
Proof.
  intros Hnot. destruct e as [|[m|]| | |cb]; unfold step.
  - now rewrite onopen_phase.
  - now contradiction (Hnot m).
  - reflexivity.
  - reflexivity.
  - reflexivity.
  - destruct (take_timer cb (timers s)); [|reflexivity].
    destruct cb; reflexivity.
Qed.

(** X5. Whatever reaches the component, the phase changes only when the
    input is an envelope from ["System"] that is not a thinking event and
    whose content matches a rule of the trigger table; the new phase is the
    one of that rule.  No click, key, text input, timer, [open], [close] or
    [error] changes the phase; in particular [ws.onopen] never resets it. *)
Theorem X5_only_system_notices_change_phase (s : State) (i : Input) :
  currentSessionState (react s i) <> currentSessionState s ->
  exists (m : ChatMessageFromServer) (r : Spec.Rule),
    i = in_socket (ev_message (Some m))
    /\ durable m = true
    /\ speaker m = lit "System"
    /\ Spec.table_lookup (content m) = Some r
    /\ currentSessionState (react s i) = Spec.new_phase r.
Proof.
  intros Hchanged. destruct i as [e|a].
  - destruct e as [|[m|]| | |cb].
    2: {
      cbn [react step onmessage] in *.
      rewrite process_message_phase in *.
      destruct (durable m) eqn:Hd; [|now contradiction Hchanged].
      destruct (eqs_spec (speaker m) (lit "System")) as [Hs|];
        [|now contradiction Hchanged].
      cbn [andb] in *.
      destruct (Spec.table_lookup (content m)) as [r|] eqn:Hr;
        [|now contradiction Hchanged].
      exists m, r. auto. }
    all: contradiction Hchanged; apply step_phase; intros m; discriminate.
  - contradiction Hchanged. apply interact_phase.
Qed.

Lemma X5_only_system_notices_change_phase_witness :
  currentSessionState
    (react live_debate
       (in_socket (ev_message (Some (system_msg "Generating final summary")))))
  <> currentSessionState live_debate
  /\ exists (m : ChatMessageFromServer) (r : Spec.Rule),
       in_socket (ev_message (Some (system_msg "Generating final summary")))
       = in_socket (ev_message (Some m))
       /\ durable m = true
       /\ speaker m = lit "System"
       /\ Spec.table_lookup (content m) = Some r
       /\ currentSessionState
            (react live_debate
               (in_socket
                  (ev_message (Some (system_msg "Generating final summary")))))
          = Spec.new_phase r.
Proof.
  assert (H : currentSessionState
                (react live_debate
                   (in_socket
                      (ev_message
                         (Some (system_msg "Generating final summary")))))
              <> currentSessionState live_debate) by discriminate.
  split; [exact H|].
  exact (X5_only_system_notices_change_phase live_debate _ H).
Defined.

(** *** The wire *)

Lemma socket_open_ws (s s' : State) :
  ws s' = ws s -> socket_open s' = socket_open s.
Proof. unfold socket_open. now intros ->. Qed.

Lemma handlers_wire (clk : Clock) (s : State) :
  wire (handleStartDebate s) =
    wire s ++
    (if all_whitespace (debateTopicInput s)
        || (length (selectedPersonaIds s) =? 0)%nat
     then []
     else if socket_open s
          then [start_frame (debateTopicInput s) (selectedPersonaIds s)]
          else [])
  /\ wire (handleSendMessage clk s) =
    wire s ++
    (if all_whitespace (userInput s)
        || negb (active_phase (currentSessionState s))
     then []
     else if socket_open s
          then [user_frame (currentSessionState s) (userInput s)]
          else [])
  /\ wire (handleRegenerate s) =
    wire s ++
    (if active_phase (currentSessionState s) && socket_open s
     then [regenerate_frame] else [])
  /\ wire (handleEarlyPauseOrSummarize s) =
    wire s ++
    (if socket_open s then
       match currentSessionState s with
       | automated_debate => [seek_frame]
       | user_interaction => [end_frame]
       | idle | summarizing => []
       end
     else [])
  /\ wire (handleStopOrReset s) =
    wire s ++ (if socket_open s then [stop_frame] else [])
  /\ wire (start_new_debate s) = wire s.
Proof.
  split; [|split; [|split; [|split; [|split]]]].
  - unfold handleStartDebate. rewrite blank_test.
    destruct (all_whitespace (debateTopicInput s));
      [project; now rewrite app_nil_r|].
    destruct (selectedPersonaIds s) as [|p ps] eqn:Hids;
      [project; now rewrite app_nil_r|].
    cbn [orb length Nat.ltb Nat.leb Nat.eqb]. cbv zeta.
    rewrite sendMessageToWs_wire. project.
    rewrite (socket_open_ws s) by reflexivity. rewrite Hids. reflexivity.
  - unfold handleSendMessage. rewrite blank_test, active_phase_tests.
    destruct (all_whitespace (userInput s));
      [project; now rewrite app_nil_r|].
    destruct (active_phase (currentSessionState s)) eqn:Ha;
      [|project; now rewrite app_nil_r].
    cbn [orb negb]. cbv zeta.
    match goal with
    | |- context [scrollToBottom ?st] =>
        destruct (scrollToBottom_frame st)
          as (_ & _ & _ & _ & _ & _ & _ & _ & _ & ->)
    end.
    project. rewrite sendMessageToWs_wire. unfold user_frame.
    destruct (currentSessionState s); try discriminate; reflexivity.
  - rewrite handleRegenerate_phase_only.
    destruct (active_phase (currentSessionState s));
      [|now rewrite app_nil_r].
    apply sendMessageToWs_wire.
  - unfold handleEarlyPauseOrSummarize.
    destruct (currentSessionState s); eval_state_is; cbv iota;
      try rewrite sendMessageToWs_wire;
      destruct (socket_open s); try reflexivity; now rewrite app_nil_r.
  - apply sendMessageToWs_wire.
  - reflexivity.
Qed.

Lemma sent_nothing (s s' : State) :
  wire s' = wire s -> sent_at_most_one s s'.
Proof.
  intros H. exists []. rewrite app_nil_r.
  repeat split; auto.
Qed.

Lemma sent_frames (s s' : State) (fr : list Envelope) :
  wire s' = wire s ++ fr ->
  (fr = [] \/
   exists f, fr = [f] /\ frame_ok f = true /\ socket_open s = true) ->
  sent_at_most_one s s'.
Proof.
  intros Hw [->|(f & -> & Hok & Hopen)].
  - apply sent_nothing. now rewrite Hw, app_nil_r.
  - exists [f]. split; [exact Hw|]. split; [cbn; lia|].
    split; [repeat constructor; exact Hok|]. intros; congruence.
Qed.

Lemma handlers_send_at_most_one (clk : Clock) (s : State) :
  sent_at_most_one s (handleStartDebate s)
  /\ sent_at_most_one s (handleSendMessage clk s)
  /\ sent_at_most_one s (handleRegenerate s)
  /\ sent_at_most_one s (handleEarlyPauseOrSummarize s)
  /\ sent_at_most_one s (handleStopOrReset s)
  /\ sent_at_most_one s (start_new_debate s).
Proof.
  destruct (handlers_wire clk s) as (H1 & H2 & H3 & H4 & H5 & H6).
  repeat split.
  - eapply sent_frames; [exact H1|].
    destruct (all_whitespace (debateTopicInput s)) eqn:Hb; [now left|].
    destruct (length (selectedPersonaIds s) =? 0)%nat eqn:Hl; [now left|].
    destruct (socket_open s); [right|now left].
    eexists. split; [reflexivity|]. split; [|reflexivity].
    unfold frame_ok, start_frame. cbn. now rewrite Hb, Hl.
  - eapply sent_frames; [exact H2|].
    destruct (all_whitespace (userInput s)) eqn:Hb; [now left|].
    destruct (currentSessionState s); cbn; try (now left);
      (destruct (socket_open s); [right|now left]);
      (eexists; split; [reflexivity|]; split; [|reflexivity]);
      unfold frame_ok, user_frame; cbn; now rewrite Hb.
  - eapply sent_frames; [exact H3|].
    destruct (active_phase (currentSessionState s)); [|now left].
    destruct (socket_open s); [right|now left]. eauto.
  - eapply sent_frames; [exact H4|].
    destruct (socket_open s); [|now left].
    destruct (currentSessionState s); [now left|right|right|now left]; eauto.
  - eapply sent_frames; [exact H5|].
    destruct (socket_open s); [right|now left]. eauto.
  - apply sent_nothing. exact H6.
Qed.

Lemma step_wire (s : State) (e : Event) : wire (step s e) = wire s.
Proof.
  destruct e as [|[m|]| | |cb]; unfold step, onmessage.
  - open_handlers. handler_cases; reflexivity.
  - unfold process_message.
    match goal with
    | |- context [scrollToBottom ?st] =>
        destruct (scrollToBottom_frame st)
          as (_ & _ & _ & _ & _ & _ & _ & _ & _ & ->)
    end.
    destruct (flag_set (isThinking m)); [reflexivity|].
    destruct (eqs (speaker m) (lit "System")); [|reflexivity].
    match goal with
    | |- context [apply_system_notice ?t ?st] =>
        destruct (apply_system_notice_lookup (content m) st)
          as (_ & _ & _ & ->)
    end.
    reflexivity.
  - reflexivity.
  - reflexivity.
  - reflexivity.
  - destruct (take_timer cb (timers s)); [|reflexivity].
    destruct cb; reflexivity.
Qed.

Lemma interact_sends_at_most_one (s : State) (a : UserAction) :
  sent_at_most_one s (interact s a).
Proof.
  destruct a; unfold interact, on_keydown, click_regenerate; handler_cases;
    try (apply sent_nothing; reflexivity).
  all: match goal with
       | |- context [handleSendMessage ?c _] =>
           apply (handlers_send_at_most_one c s)
       | _ => apply (handlers_send_at_most_one clock_a s)
       end.
Qed.

(** X6. Every input adds at most one frame to the wire and removes or
    reorders none; it adds none while the socket is not open, and none at
    all when it is a socket or timer event or text typed into a field. *)
Theorem X6_at_most_one_frame_per_input (s : State) (i : Input) :
  exists fr : list Envelope,
    wire (react s i) = wire s ++ fr
    /\ (length fr <= 1)%nat
    /\ (socket_open s = false -> fr = [])
    /\ match i with
       | in_socket _
       | in_user (ua_type_topic _)
       | in_user (ua_type_input _)
       | in_user (ua_choose_personas _)
       | in_user ua_click_start_new_debate => fr = []
       | _ => True
       end.
Proof.
  assert (Hnone : wire (react s i) = wire s ->
            exists fr : list Envelope,
              wire (react s i) = wire s ++ fr
              /\ (length fr <= 1)%nat
              /\ (socket_open s = false -> fr = [])
              /\ fr = []).
  { intros H. exists []. rewrite app_nil_r. auto. }
  destruct i as [e|a].
  - destruct (Hnone (step_wire s e)) as (fr & H1 & H2 & H3 & H4). eauto.
  - destruct a.
    1, 2, 4, 6:
      destruct Hnone as (fr & H1 & H2 & H3 & H4);
      [cbn [react interact]; unfold start_new_debate;
       handler_cases; reflexivity | eauto].
    all: match goal with
         | |- context [in_user ?a] =>
             destruct (interact_sends_at_most_one s a)
               as (fr & H1 & H2 & _ & H3)
         end.
    all: exists fr; repeat split; assumption.
Qed.

(** X7. The frames on the wire always follow the outbound protocol: a
    ["start_debate"] frame carries a topic that is not blank and at least
    one persona id, a ["user_query"] or ["user_interjection"] frame carries
    a content that is not blank, and the frames without payload are
    ["regenerate_last_ai_turn"], ["seek_convergence"] and
    ["stop_debate"]. *)
Theorem X7_wire_follows_protocol (s : State) (inputs : list Input) :
  Forall (fun f => frame_ok f = true) (wire s) ->
  Forall (fun f => frame_ok f = true) (wire (session s inputs)).
Proof.
  intros Hs. induction inputs as [|i inputs IH] using rev_ind; [exact Hs|].
  rewrite session_snoc.
  assert (Hone : sent_at_most_one (session s inputs)
                   (react (session s inputs) i)).
  { destruct i as [e|a]; [|apply interact_sends_at_most_one].
    apply sent_nothing, step_wire. }
  destruct Hone as (fr & -> & _ & Hok & _).
  apply Forall_app. split; assumption.
Qed.

Lemma X7_wire_follows_protocol_witness :
  Forall (fun f => frame_ok f = true) (wire ready_to_start)
  /\ Forall (fun f => frame_ok f = true)
       (wire (session ready_to_start
                [in_user ua_click_start_debate;
                 in_socket (ev_message (Some (system_msg "Debate started.")));
                 in_user (ua_type_input (lit "I disagree"));
                 in_user (ua_click_send clock_a);
                 in_user ua_click_stop_reset])).
Proof.
  assert (H : Forall (fun f => frame_ok f = true) (wire ready_to_start))
    by constructor.
  split; [exact H|].
  exact (X7_wire_follows_protocol ready_to_start _ H).
Defined.

(** The session of the witness above puts three frames on the wire. *)
Example three_frames_sent :
  map type
    (wire (session ready_to_start
             [in_user ua_click_start_debate;
              in_socket (ev_message (Some (system_msg "Debate started.")));
              in_user (ua_type_input (lit "I disagree"));
              in_user (ua_click_send clock_a);
              in_user ua_click_stop_reset]))
  = ["start_debate"; "user_interjection"; "stop_debate"].
Proof. reflexivity. Qed.

(** *** The transcript *)

Lemma handleStartDebate_messages (s : State) :
  messages (handleStartDebate s) = messages s
  \/ messages (handleStartDebate s) = [].
Proof. open_handlers. handler_cases; auto. Qed.

Lemma step_messages (s : State) (e : Event) :
  exists new : list ChatMessageFromServer,
    messages (step s e) = messages s ++ new /\ (length new <= 1)%nat.
Proof.
  destruct e as [|[m|]| | |cb]; unfold step, onmessage.
  2: { rewrite (proj2 (process_message_stores m s)).
       destruct (flag_set (isThinking m));
         [exists []; rewrite app_nil_r; auto | exists [m]; auto]. }
  all: exists []; rewrite app_nil_r; split; [|cbn; lia].
  - open_handlers. handler_cases; reflexivity.
  - reflexivity.
  - reflexivity.
  - reflexivity.
  - destruct (take_timer cb (timers s)); [|reflexivity].
    destruct cb; reflexivity.
Qed.

Lemma setup_shown_no_messages (s : State) :
  setup_shown s = true -> messages s = [].
Proof.
  unfold setup_shown. intros H. apply andb_prop in H as [_ H].
  destruct (messages s); [reflexivity | discriminate].
Qed.

(** X8. Apart from the "Start New Debate" button, which empties it, nothing
    the user does on the page and nothing the socket delivers removes or
    changes an entry of the transcript: each input leaves the transcript as
    it is or appends one entry.  (The "Start Debate" button is only there
    while the transcript is empty.) *)
Theorem X8_transcript_is_append_only (s : State) (i : Input) :
  i <> in_user ua_click_start_new_debate ->
  exists new : list ChatMessageFromServer,
    messages (react s i) = messages s ++ new /\ (length new <= 1)%nat.
Proof.
  intros Hnot. destruct i as [e|a]; [apply step_messages|].
  assert (Hsame : forall s', messages s' = messages s ->
            exists new : list ChatMessageFromServer,
              messages s' = messages s ++ new /\ (length new <= 1)%nat).
  { intros s' ->. exists []. rewrite app_nil_r. auto. }
  assert (Hsend : forall clk,
            exists new : list ChatMessageFromServer,
              messages (handleSendMessage clk s) = messages s ++ new
              /\ (length new <= 1)%nat).
  { intros clk. rewrite handleSendMessage_messages.
    destruct (all_whitespace (userInput s)
              || negb (active_phase (currentSessionState s)));
      eexists; split; try reflexivity; cbn; lia. }
  destruct a; cbn [react interact]; unfold on_keydown, click_regenerate.
  4: now contradiction Hnot.
  3: { destruct (setup_shown s) eqn:Hsetup; cbn [andb]; [|now apply Hsame].
       destruct (canStartDebate s); [|now apply Hsame].
       apply Hsame. apply setup_shown_no_messages in Hsetup.
       destruct (handleStartDebate_messages s) as [H|H]; congruence. }
  all: repeat split_if; try (now apply Hsame); try apply Hsend.
  all: apply Hsame; open_handlers; handler_cases; reflexivity.
Qed.

Lemma X8_transcript_is_append_only_witness :
  in_user (ua_click_send clock_a) <> in_user ua_click_start_new_debate
  /\ exists new : list ChatMessageFromServer,
       messages (react live_debate (in_user (ua_click_send clock_a)))
       = messages live_debate ++ new /\ (length new <= 1)%nat.
Proof.
  assert (H : in_user (ua_click_send clock_a)
              <> in_user ua_click_start_new_debate) by discriminate.
  split; [exact H|].
  exact (X8_transcript_is_append_only live_debate _ H).
Defined.

(** *** Ways to send *)

Lemma handleSendMessage_blank (clk : Clock) (s : State) :
  negb (truthy (trim (userInput s))) = true -> handleSendMessage clk s = s.
Proof. intros H. unfold handleSendMessage. now rewrite H. Qed.

(** X9. Pressing Enter without Shift in the input and clicking Send do the
    same in every state: on blank text the button is disabled and the
    handler called by the key returns at once.  Any other key, and Enter
    with Shift, change nothing. *)
Theorem X9_enter_key_is_send_button (clk : Clock) (s : State) :
  interact s (ua_keydown_input (lit "Enter") false clk)
  = interact s (ua_click_send clk)
  /\ forall (key : jstring) (shiftKey : bool),
       eqs key (lit "Enter") && negb shiftKey = false ->
       interact s (ua_keydown_input key shiftKey clk) = s.
Proof.
  split.
  - cbn [interact]. unfold on_keydown, send_button_disabled.
    change (eqs (lit "Enter") (lit "Enter")) with true. cbn [negb andb].
    destruct (input_area_shown s); [|reflexivity]. cbn [andb].
    destruct (canSendMessage s); cbn [negb orb andb];
      [|now rewrite orb_true_r].
    rewrite orb_false_r.
    destruct (negb (truthy (trim (userInput s)))) eqn:Hblank;
      [now apply handleSendMessage_blank | reflexivity].
  - intros key shiftKey H. cbn [interact]. unfold on_keydown. rewrite H.
    destruct (input_area_shown s && canSendMessage s); reflexivity.
Qed.

(** X10. In the question phase "End & Summarize" puts on the wire exactly
    the frame that sending the text ["/end"] would put there, but adds
    nothing to the transcript, while sending the text appends it as a
    message of ["User"]. *)
Theorem X10_end_button_is_silent_end_command (clk : Clock) (s : State) :
  currentSessionState s = user_interaction ->
  wire (handleEarlyPauseOrSummarize s)
  = wire (handleSendMessage clk (set_userInput (lit "/end") s))
  /\ messages (handleEarlyPauseOrSummarize s) = messages s
  /\ messages (handleSendMessage clk (set_userInput (lit "/end") s))
     = messages s ++ [userMsg clk (lit "/end")].
Proof.
  intros Hphase.
  destruct (handlers_wire clk s) as (_ & _ & _ & -> & _).
  destruct (handlers_wire clk (set_userInput (lit "/end") s)) as (_ & -> & _).
  rewrite handleSendMessage_messages. project.
  rewrite (socket_open_ws s (set_userInput (lit "/end") s)) by reflexivity.
  rewrite Hphase. repeat split.
  unfold handleEarlyPauseOrSummarize, sendMessageToWs. rewrite Hphase.
  eval_state_is. cbv iota. destruct (socket_open s); reflexivity.
Qed.

Lemma X10_end_button_is_silent_end_command_witness :
  currentSessionState question_time = user_interaction
  /\ wire (handleEarlyPauseOrSummarize question_time) = [end_frame]
  /\ wire (handleEarlyPauseOrSummarize question_time)
     = wire (handleSendMessage clock_a (set_userInput (lit "/end") question_time)).
Proof.
  split; [reflexivity|]. split; [reflexivity|].
  exact (proj1 (X10_end_button_is_silent_end_command clock_a question_time
                  eq_refl)).
Defined.

(** *** Timers and the connection status *)

Lemma take_timer_keeps (P : Z * Callback -> Prop) (cb : Callback)
  (l rest : list (Z * Callback)) :
  take_timer cb l = Some rest -> Forall P l -> Forall P rest.
Proof.
  revert rest. induction l as [|[d c] l IH]; intros rest H Hl; [discriminate|].
  cbn in H. apply Forall_cons in Hl as [Hx Hl].
  destruct (bool_decide (c = cb)); [congruence|].
  destruct (take_timer cb l) as [r|]; [|discriminate].
  injection H as <-. apply Forall_cons. auto.
Qed.

Lemma react_timers (s : State) (i : Input) :
  Forall (fun t => timer_ok t = true) (timers s) ->
  Forall (fun t => timer_ok t = true) (timers (react s i)).
Proof.
  intros H.
  assert (H50 : Forall (fun t => timer_ok t = true)
                  (timers s ++ [(50%Z, cb_scroll)])).
  { apply Forall_app. split; [exact H | repeat constructor]. }
  assert (H3000 : Forall (fun t => timer_ok t = true)
                    (timers s ++ [(3000%Z, cb_connectWebSocket)])).
  { apply Forall_app. split; [exact H | repeat constructor]. }
  destruct i as [e|a].
  - destruct e as [|[m|]| | |cb]; unfold react, step, onmessage.
    + open_handlers. handler_cases; assumption.
    + unfold process_message, apply_system_notice. open_handlers.
      handler_cases; assumption.
    + exact H.
    + exact H.
    + exact H3000.
    + destruct (take_timer cb (timers s)) as [rest|] eqn:Hr; [|assumption].
      destruct cb; cbn [run_callback]; open_handlers; project;
        eapply take_timer_keeps; eauto.
  - destruct a; unfold react, interact, on_keydown, click_regenerate;
      open_handlers; handler_cases; assumption.
Qed.

(** X11. The component registers two kinds of timer only, and that stays
    so through any session: every pending reconnect has a delay of 3000 ms
    and every pending scroll a delay of 50 ms. *)
Theorem X11_timers_have_fixed_delays (s : State) (inputs : list Input) :
  Forall (fun t => timer_ok t = true) (timers s) ->
  Forall (fun t => timer_ok t = true) (timers (session s inputs)).
Proof.
  revert s. induction inputs as [|i inputs IH]; intros s H; [exact H|].
  rewrite session_cons. apply IH, react_timers, H.
Qed.

Lemma X11_timers_have_fixed_delays_witness :
  Forall (fun t => timer_ok t = true) (timers dropped_debate)
  /\ Forall (fun t => timer_ok t = true)
       (timers (session dropped_debate
                  [in_socket (ev_timeout cb_connectWebSocket);
                   in_socket ev_error; in_socket ev_close;
                   in_socket (ev_message (Some (thinking_msg "Gemini")))])).
Proof.
  assert (H : Forall (fun t => timer_ok t = true) (timers dropped_debate))
    by (repeat constructor).
  split; [exact H|].
  exact (X11_timers_have_fixed_delays dropped_debate _ H).
Defined.

Lemma react_isConnected (s : State) (i : Input) :
  isConnected (react s i) =
    match i with
    | in_socket ev_open => true
    | in_socket ev_close => false
    | _ => isConnected s
    end.
Proof.
  destruct i as [e|a].
  - destruct e as [|[m|]| | |cb]; unfold react, step, onmessage.
    + open_handlers. handler_cases; reflexivity.
    + unfold process_message, apply_system_notice. open_handlers.
      handler_cases; reflexivity.
    + reflexivity.
    + reflexivity.
    + reflexivity.
    + destruct (take_timer cb (timers s)); [|reflexivity].
      destruct cb; reflexivity.
  - destruct a; unfold react, interact, on_keydown, click_regenerate;
      open_handlers; handler_cases; reflexivity.
Qed.

(** X12. After any session the connection status is the one the most
    recent [open] or [close] event asked for, connected after [open] and
    disconnected after [close]; without such an event it is what it was.
    An [error] event, a message, a timer or the user never changes it. *)
Theorem X12_status_follows_last_open_or_close
  (s : State) (inputs : list Input) :
  isConnected (session s inputs) =
    match last_link_event inputs with
    | Some b => b
    | None => isConnected s
    end.
Proof.
  revert s. induction inputs as [|i inputs IH]; intros s; [reflexivity|].
  rewrite session_cons, IH. cbn [last_link_event].
  destruct (last_link_event inputs); [reflexivity|].
  rewrite react_isConnected.
  destruct i as [[]|]; reflexivity.
Qed.

(** *** Identifiers of local messages, again *)

(** X13. Sends whose [Date.now()] readings are pairwise different give
    local messages with pairwise different ids, whatever their texts. *)
Theorem X13_distinct_readings_distinct_ids (sends : list (Clock * jstring)) :
  NoDup (map (fun p => now (fst p)) sends) ->
  NoDup (map (fun p => id (userMsg (fst p) (snd p))) sends).
Proof.
  induction sends as [|[c t] sends IH]; intros H; [constructor|].
  cbn [map fst snd] in *. apply NoDup_cons in H as [Hnew Hrest].
  apply NoDup_cons. split; [|apply IH, Hrest].
  intros Hin. apply Hnew.
  apply list_elem_of_fmap in Hin as ([c' t'] & Heq & Hin).
  apply list_elem_of_fmap. exists (c', t'). split; [|exact Hin].
  cbn [fst snd] in *. apply (userMsg_id_eq c c' t t'). exact Heq.
Qed.

Lemma X13_distinct_readings_distinct_ids_witness :
  NoDup (map (fun p => now (fst p))
           [(clock_a, lit "I disagree");
            ({| now := 1714557600001;
                isoString := lit "2024-05-01T10:00:00.001Z" |}, lit "Me again")])
  /\ NoDup (map (fun p => id (userMsg (fst p) (snd p)))
              [(clock_a, lit "I disagree");
               ({| now := 1714557600001;
                   isoString := lit "2024-05-01T10:00:00.001Z" |}, lit "Me again")]).
Proof.
  assert (H : NoDup (map (fun p => now (fst p))
                       [(clock_a, lit "I disagree");
                        ({| now := 1714557600001;
                            isoString := lit "2024-05-01T10:00:00.001Z" |},
                         lit "Me again")])).
  { cbn. apply NoDup_cons. split.
    - intros Hin. apply list_elem_of_singleton in Hin. discriminate Hin.
    - apply NoDup_singleton. }
  split; [exact H|].
  exact (X13_distinct_readings_distinct_ids _ H).
Defined.

(** *** Envelopes that cannot be decoded *)

(** No handler reads the error notice. *)
Lemma react_ignores_error (e : option string) (s : State) (i : Input) :
  forget_error (react (set_showError e s) i) = forget_error (react s i).
Proof.
  destruct i as [ev|a]; [destruct ev as [|[m|]| | |cb] | destruct a].
  all: unfold react, step, interact, on_keydown, click_regenerate, onmessage,
         process_message, apply_system_notice; open_handlers;
       unfold setup_shown, ended_prompt_shown, input_area_shown,
         action_panel_shown, send_button_disabled, regenerate_button_rendered,
         regenerate_button_disabled, canStartDebate, canSendMessage,
         canUseActionButtons, noAiMessagesYet, socket_open;
       project.
  all: try (destruct (take_timer cb (timers s)); [destruct cb|];
            unfold run_callback, connectWebSocket).
  all: repeat (split_if; project).
  all: try (destruct (ws s) as [[]|]).
  all: destruct s; reflexivity.
Qed.

Lemma forget_error_inv (s1 s2 : State) :
  forget_error s1 = forget_error s2 -> s2 = set_showError (showError s2) s1.
Proof.
  destruct s1, s2. unfold forget_error, set_showError. cbn.
  intros H. injection H as -> -> -> -> -> -> -> -> -> -> ->. reflexivity.
Qed.

Lemma react_respects_forget (s1 s2 : State) (i : Input) :
  forget_error s1 = forget_error s2 ->
  forget_error (react s1 i) = forget_error (react s2 i).
Proof.
  intros H. rewrite (forget_error_inv s1 s2 H).
  symmetry. apply react_ignores_error.
Qed.

Lemma react_malformed (s : State) (i : Input) :
  malformed i = true -> forget_error (react s i) = forget_error s.
Proof.
  destruct i as [[|[m|]| | |cb]|a]; try discriminate. reflexivity.
Qed.

Lemma session_respects_forget (inputs : list Input) (s1 s2 : State) :
  forget_error s1 = forget_error s2 ->
  forget_error (session s1 inputs)
  = forget_error
      (session s2 (List.filter (fun i => negb (malformed i)) inputs)).
Proof.
  revert s1 s2. induction inputs as [|i inputs IH]; intros s1 s2 H;
    [exact H|].
  rewrite session_cons. cbn [List.filter].
  destruct (malformed i) eqn:Hbad; cbn [negb].
  - apply IH. rewrite react_malformed by exact Hbad. exact H.
  - rewrite session_cons. apply IH, react_respects_forget, H.
Qed.

(** X14. Envelopes that [JSON.parse] rejects leave a notice and nothing
    else, and nothing later depends on that notice: a session with such
    envelopes anywhere in it ends in the state of the same session without
    them, the error notice aside.  Transcript, thinking set, phase, wire
    and timers are the same. *)
Theorem X14_undecodable_envelopes_touch_the_notice_only
  (s : State) (inputs : list Input) :
  forget_error (session s inputs)
  = forget_error
      (session s (List.filter (fun i => negb (malformed i)) inputs)).
Proof. apply session_respects_forget. reflexivity. Qed.

(** *** The thinking set over a session *)

Lemma react_thinking (s : State) (i : Input) (sp : jstring) :
  sp ∈ thinkingSpeakers (react s i) ->
  sp ∈ thinkingSpeakers s
  \/ exists m : ChatMessageFromServer,
       i = in_socket (ev_message (Some m))
       /\ flag_set (isThinking m) = true
       /\ speaker m = sp.
Proof.
  destruct i as [e|a].
  - destruct e as [|[m|]| | |cb]; unfold react, step, onmessage.
    + open_handlers. handler_cases; auto.
    + rewrite (proj1 (process_message_stores m s)).
      destruct (flag_set (isThinking m)) eqn:Hflag.
      * rewrite elem_of_union, elem_of_singleton.
        intros [->|H]; [right; exists m; auto | auto].
      * rewrite elem_of_difference. intros [H _]. auto.
    + auto.
    + auto.
    + open_handlers. project. intros H. now apply elem_of_empty in H.
    + destruct (take_timer cb (timers s)); [|auto].
      destruct cb; auto.
  - destruct a; unfold react, interact, on_keydown, click_regenerate;
      open_handlers; handler_cases; auto.
    all: intros H; now apply elem_of_empty in H.
Qed.

(** X15. Nobody is shown as thinking who did not announce it: after any
    session, every speaker in the thinking set was there at the start or
    is the speaker of a thinking envelope received during the session.
    Nothing the user does and no other event adds a speaker. *)
Theorem X15_thinking_speakers_come_from_envelopes
  (s : State) (inputs : list Input) (sp : jstring) :
  sp ∈ thinkingSpeakers (session s inputs) ->
  sp ∈ thinkingSpeakers s
  \/ exists m : ChatMessageFromServer,
       In (in_socket (ev_message (Some m))) inputs
       /\ flag_set (isThinking m) = true
       /\ speaker m = sp.
Proof.
  induction inputs as [|i inputs IH] using rev_ind; [auto|].
  rewrite session_snoc. intros H.
  apply react_thinking in H as [H|(m & -> & Hflag & Hsp)].
  - destruct (IH H) as [H0|(m & Hin & Hflag & Hsp)]; [auto|].
    right. exists m. rewrite in_app_iff. auto.
  - right. exists m. rewrite in_app_iff. cbn. auto.
Qed.

Lemma X15_thinking_speakers_come_from_envelopes_witness :
  lit "Gemini" ∈ thinkingSpeakers
               (session live_debate
                  [in_socket (ev_message (Some (thinking_msg "Gemini")))])
  /\ (lit "Gemini" ∈ thinkingSpeakers live_debate
      \/ exists m : ChatMessageFromServer,
           In (in_socket (ev_message (Some m)))
             [in_socket (ev_message (Some (thinking_msg "Gemini")))]
           /\ flag_set (isThinking m) = true
           /\ speaker m = lit "Gemini").
Proof.
  assert (H : lit "Gemini" ∈ thinkingSpeakers
                (session live_debate
                   [in_socket (ev_message (Some (thinking_msg "Gemini")))])).
  { cbn [session fold_left react step onmessage].
    rewrite (proj1 (process_message_stores (thinking_msg "Gemini")
                      live_debate)).
    cbn. apply elem_of_union_l, elem_of_singleton. reflexivity. }
  split; [exact H|].
  exact (X15_thinking_speakers_come_from_envelopes live_debate _ (lit "Gemini") H).
Defined.

(** *** What the page offers *)

(** X16. Of the setup form, the prompt after a session and the input area
    exactly one is rendered, except while summarizing, when none is: the
    setup form in [idle] with an empty transcript, the prompt in [idle]
    with a transcript, the input area (and with it the action buttons) in
    the two active phases. *)
Theorem X16_one_block_at_a_time (s : State) :
  blocks_shown s
  = (if state_is (currentSessionState s) summarizing then 0 else 1)%nat
  /\ action_panel_shown s = input_area_shown s
  /\ input_area_shown s = active_phase (currentSessionState s).
Proof.
  unfold blocks_shown, setup_shown, ended_prompt_shown, input_area_shown,
    action_panel_shown, active_phase.
  destruct (currentSessionState s), (messages s); repeat split.
Qed.

(** Decides the gate of a button in hypothesis [H] once phase, transcript
    and status are known. *)
Ltac gate_in H :=
  repeat match type of H with
  | context [state_is ?a ?b] =>
      let v := eval vm_compute in (state_is a b) in
      change (state_is a b) with v in H
  end;
  cbn [andb orb negb length Nat.eqb Nat.ltb Nat.leb] in H.

Lemma self_app_nil {A : Type} (l fr : list A) : l = l ++ fr -> fr = [].
Proof.
  intros H. apply (f_equal (@length A)) in H. rewrite length_app in H.
  destruct fr; [reflexivity | cbn in H; lia].
Qed.

(** X17. A frame leaves through the page only in the state its command is
    meant for: ["start_debate"] in [idle] with an empty transcript,
    ["user_interjection"] and ["seek_convergence"] in [automated_debate],
    ["user_query"] in [user_interaction], ["regenerate_last_ai_turn"] in
    an active phase with an AI message in the transcript, all of them
    while the component is connected; ["stop_debate"] in
    [automated_debate] while connected, or from the prompt after a
    session. *)
Theorem X17_frames_leave_in_their_phase
  (s : State) (a : UserAction) (f : Envelope) :
  wire (interact s a) = wire s ++ [f] ->
  frame_allowed s f = true /\ socket_open s = true.
Proof.
  intros Hsent.
  assert (Hopen : socket_open s = true).
  { destruct (socket_open s) eqn:Ho; [reflexivity|].
    destruct (interact_sends_at_most_one s a) as (fr & Hw & _ & _ & Hnone).
    rewrite Hw in Hsent. apply app_inv_head in Hsent.
    rewrite (Hnone Ho) in Hsent. discriminate. }
  split; [|exact Hopen].
  destruct (handlers_wire clock_a s) as (Hstart & _ & Hregen & Hearly & Hstop & _).
  rewrite Hopen in *.
  unfold frame_allowed.
  destruct a; cbn [interact] in Hsent;
    unfold on_keydown, click_regenerate, send_button_disabled,
      regenerate_button_rendered, regenerate_button_disabled,
      canStartDebate, canSendMessage, canUseActionButtons, setup_shown,
      ended_prompt_shown, input_area_shown, action_panel_shown,
      active_phase in Hsent;
    try rewrite noAiMessagesYet_existsb in Hsent;
    try rewrite blank_test in Hsent.
  1, 2, 6: (destruct (currentSessionState s), (messages s), (isConnected s);
            gate_in Hsent; apply self_app_nil in Hsent; discriminate).
  - (* Start Debate *)
    destruct (currentSessionState s), (messages s), (isConnected s);
      gate_in Hsent; try (apply self_app_nil in Hsent; discriminate).
    rewrite Hstart in Hsent. apply app_inv_head in Hsent.
    destruct (all_whitespace (debateTopicInput s)
              || (length (selectedPersonaIds s) =? 0)%nat);
      [discriminate|].
    injection Hsent as <-. reflexivity.
  - (* Start New Debate *)
    destruct (currentSessionState s), (messages s), (isConnected s);
      gate_in Hsent; apply self_app_nil in Hsent; discriminate.
  - (* Clear History *)
    destruct (currentSessionState s), (messages s);
      gate_in Hsent; try (apply self_app_nil in Hsent; discriminate).
    rewrite Hstop in Hsent. apply app_inv_head in Hsent.
    injection Hsent as <-. cbn. now rewrite !orb_true_r.
  - (* Enter *)
    destruct (handlers_wire clk s) as (_ & Hsend & _).
    rewrite Hopen in Hsend.
    destruct (currentSessionState s) eqn:Hp, (isConnected s);
      gate_in Hsent; try (apply self_app_nil in Hsent; discriminate).
    all: destruct (eqs key (lit "Enter") && negb shiftKey);
           [|apply self_app_nil in Hsent; discriminate].
    all: rewrite Hsend in Hsent; apply app_inv_head in Hsent.
    all: destruct (all_whitespace (userInput s)); [discriminate|].
    all: injection Hsent as <-; reflexivity.
  - (* Send *)
    destruct (handlers_wire clk s) as (_ & Hsend & _).
    rewrite Hopen in Hsend.
    destruct (currentSessionState s) eqn:Hp, (isConnected s);
      gate_in Hsent; try (apply self_app_nil in Hsent; discriminate).
    all: destruct (all_whitespace (userInput s)) eqn:Hb; gate_in Hsent;
           try (apply self_app_nil in Hsent; discriminate).
    all: rewrite Hsend in Hsent; apply app_inv_head in Hsent.
    all: injection Hsent as <-; reflexivity.
  - (* Regenerate *)
    destruct (currentSessionState s) eqn:Hp, (isConnected s);
      gate_in Hsent; try (apply self_app_nil in Hsent; discriminate).
    all: destruct (existsb is_ai_message (messages s)); gate_in Hsent;
           [|apply self_app_nil in Hsent; discriminate].
    all: rewrite Hregen in Hsent; apply app_inv_head in Hsent.
    all: injection Hsent as <-; reflexivity.
  - (* Pause / End *)
    destruct (currentSessionState s) eqn:Hp, (isConnected s);
      gate_in Hsent; try (apply self_app_nil in Hsent; discriminate).
    all: rewrite Hearly in Hsent; apply app_inv_head in Hsent.
    all: injection Hsent as <-; reflexivity.
  - (* Stop & Reset *)
    destruct (currentSessionState s) eqn:Hp, (isConnected s);
      gate_in Hsent; try (apply self_app_nil in Hsent; discriminate).
    rewrite Hstop in Hsent. apply app_inv_head in Hsent.
    injection Hsent as <-. reflexivity.
Qed.

Lemma X17_frames_leave_in_their_phase_witness :
  wire (interact live_debate (ua_click_send clock_a))
  = wire live_debate ++ [user_frame automated_debate (lit "I disagree")]
  /\ frame_allowed live_debate (user_frame automated_debate (lit "I disagree"))
     = true
  /\ socket_open live_debate = true.
Proof.
  assert (H : wire (interact live_debate (ua_click_send clock_a))
              = wire live_debate
                ++ [user_frame automated_debate (lit "I disagree")])
    by reflexivity.
  split; [exact H|].
  exact (X17_frames_leave_in_their_phase live_debate _ _ H).
Defined.


(** ** Commands while disconnected *)





